(** * Mailroom (peewee edition): the interaction shell and its collaborators

    A shallow embedding of [mailroom_peewee.py]: the menu loop, the two
    prompt loops, the thank-you flow and the projection flow, together with
    the parts of Python they rest on ([str.strip], [str.lower],
    [str.split], [str.title], [int] and [float] on text).

    Conventions.
    - Text is ASCII: a Python [str] is a [string] whose characters are code
      points below 128.  Characters above that are carried along as
      uncased, non-blank symbols.
    - A Python [float] is an IEEE binary64 value, [spec_float] at
      precision 53 and maximal exponent 1024.
    - [input()] reads from a finite list of lines; reading past its end
      raises [EOFError], as Python does at end of file. *)

From Stdlib Require Import ZArith QArith Ascii String List Bool Lia Lqa.
From Stdlib Require Import Floats.SpecFloat.
From Stdlib Require Import Structures.OrdersEx.
From stdpp Require Import base option list gmap strings sorting.

Local Open Scope Z_scope.

(* ===================================================================== *)
(** ** Python text operations *)
(* ===================================================================== *)

Module PyStr.

Definition code (c : ascii) : N := N_of_ascii c.

(** [str.isspace] on one ASCII character: tab, line feed, vertical tab,
    form feed, carriage return, the four separators 0x1c-0x1f, space. *)
Definition is_space (c : ascii) : bool :=
  let n := code c in
  ((9 <=? n) && (n <=? 13) || (28 <=? n) && (n <=? 32))%N.

Definition is_upper (c : ascii) : bool :=
  let n := code c in ((65 <=? n) && (n <=? 90))%N.

Definition is_lower (c : ascii) : bool :=
  let n := code c in ((97 <=? n) && (n <=? 122))%N.

(** A cased character is a letter. *)
Definition is_cased (c : ascii) : bool := is_upper c || is_lower c.

Definition lower_char (c : ascii) : ascii :=
  if is_upper c then ascii_of_N (code c + 32) else c.

Definition upper_char (c : ascii) : ascii :=
  if is_lower c then ascii_of_N (code c - 32) else c.

Definition is_empty (s : string) : bool :=
  match s with EmptyString => true | String _ _ => false end.

(** [str.lower] *)
Fixpoint lower (s : string) : string :=
  match s with
  | EmptyString => EmptyString
  | String c s' => String (lower_char c) (lower s')
  end.

Fixpoint lstrip (s : string) : string :=
  match s with
  | EmptyString => EmptyString
  | String c s' => if is_space c then lstrip s' else s
  end.

Fixpoint rstrip (s : string) : string :=
  match s with
  | EmptyString => EmptyString
  | String c s' =>
      let r := rstrip s' in
      if is_space c && is_empty r then EmptyString else String c r
  end.

(** [str.strip] without argument *)
Definition strip (s : string) : string := rstrip (lstrip s).

(** [s.startswith(p)] *)
Definition startswith (s p : string) : bool := String.prefix p s.

(** [str.split] without argument: the maximal runs of non-blank
    characters.  [split_go] returns the word in progress at the head of
    the text and the words completed after it. *)
Definition push_word (w : string) (ws : list string) : list string :=
  if is_empty w then ws else w :: ws.

Fixpoint split_go (s : string) : string * list string :=
  match s with
  | EmptyString => (EmptyString, [])
  | String c s' =>
      let '(w, ws) := split_go s' in
      if is_space c then (EmptyString, push_word w ws)
      else (String c w, ws)
  end.

Definition split (s : string) : list string :=
  let '(w, ws) := split_go s in push_word w ws.

(** [str.title]: a letter is upper-cased unless the character before it
    is a letter, in which case it is lower-cased. *)
Fixpoint title_go (previous_is_cased : bool) (s : string) : string :=
  match s with
  | EmptyString => EmptyString
  | String c s' =>
      String (if previous_is_cased then lower_char c else upper_char c)
             (title_go (is_cased c) s')
  end.

Definition title (s : string) : string := title_go false s.

(** [sep.join(words)] *)
Definition join (sep : string) (ws : list string) : string :=
  String.concat sep ws.

End PyStr.

(* ===================================================================== *)
(** ** Python numbers read from text *)
(* ===================================================================== *)

Module PyNum.
Import PyStr.

Definition prec : Z := 53.
Definition emax : Z := 1024.

Definition digit (c : ascii) : option Z :=
  let n := code c in
  if ((48 <=? n) && (n <=? 57))%N then Some (Z.of_N n - 48) else None.

Definition underscore : ascii := "_"%char.

(** The grammar's [digitpart ::= digit (["_"] digit)*].  [digits_tail]
    reads what may follow a first digit and returns the digits with the
    unread rest. *)
Fixpoint digits_tail (s : string) : list Z * string :=
  match s with
  | EmptyString => ([], EmptyString)
  | String c s' =>
      match digit c with
      | Some d => let '(ds, r) := digits_tail s' in (d :: ds, r)
      | None =>
          if Ascii.eqb c underscore then
            match s' with
            | String c' s'' =>
                match digit c' with
                | Some d => let '(ds, r) := digits_tail s'' in (d :: ds, r)
                | None => ([], s)
                end
            | EmptyString => ([], s)
            end
          else ([], s)
      end
  end.

Definition digitpart (s : string) : option (list Z * string) :=
  match s with
  | EmptyString => None
  | String c s' =>
      match digit c with
      | Some d => let '(ds, r) := digits_tail s' in Some (d :: ds, r)
      | None => None
      end
  end.

Definition digits_value (ds : list Z) : Z :=
  fold_left (fun acc d => 10 * acc + d) ds 0.

(** An optional sign: [true] for a minus. *)
Definition sign (s : string) : bool * string :=
  match s with
  | String "-"%char s' => (true, s')
  | String "+"%char s' => (false, s')
  | _ => (false, s)
  end.

(** The blanks that [int] and [float] allow around a number: the C
    locale's white space (space, tab, line feed, vertical tab, form feed,
    carriage return).  The separators 0x1c-0x1f, which [str.strip] takes
    off, are not among them. *)
Definition isspace_c (c : ascii) : bool :=
  let n := code c in
  ((9 <=? n) && (n <=? 13) || (n =? 32))%N.

Fixpoint lstrip_c (s : string) : string :=
  match s with
  | EmptyString => EmptyString
  | String c s' => if isspace_c c then lstrip_c s' else s
  end.

Fixpoint rstrip_c (s : string) : string :=
  match s with
  | EmptyString => EmptyString
  | String c s' =>
      let r := rstrip_c s' in
      if isspace_c c && is_empty r then EmptyString else String c r
  end.

Definition strip_c (s : string) : string := rstrip_c (lstrip_c s).

(** The longest run of digits that [int] converts (the default of
    [sys.get_int_max_str_digits]); a longer one is a [ValueError]. *)
Definition int_max_str_digits : nat := 4300.

(** [int(text)] in base ten; [None] stands for [ValueError]. *)
Definition py_int (text : string) : option Z :=
  let '(neg, s) := sign (strip_c text) in
  match digitpart s with
  | Some (ds, EmptyString) =>
      if (int_max_str_digits <? length ds)%nat then None
      else Some (if neg then - digits_value ds else digits_value ds)
  | _ => None
  end.

(** The decimal [m * 10^e] (with [m > 0]) rounded to the nearest
    binary64, ties to even; too large gives an infinity, too small a
    zero. *)
Definition decimal_to_float (neg : bool) (m : positive) (e : Z) : spec_float :=
  match e with
  | Zneg k =>
      let '(q, e', l) :=
        SFdiv_core_binary prec emax (Zpos m) 0 (Zpos (10 ^ k)) 0 in
      binary_round_aux prec emax neg q e' l
  | _ => binary_round prec emax neg (m * Z.to_pos (10 ^ e)) 0
  end.

Definition number (s : string) : option (list Z * list Z * string) :=
  match digitpart s with
  | Some (ds, String "."%char r) =>
      match digitpart r with
      | Some (fs, r') => Some (ds, fs, r')
      | None => Some (ds, [], r)
      end
  | Some (ds, r) => Some (ds, [], r)
  | None =>
      match s with
      | String "."%char r =>
          match digitpart r with
          | Some (fs, r') => Some ([], fs, r')
          | None => None
          end
      | _ => None
      end
  end.

Definition exponent (s : string) : option Z :=
  match s with
  | EmptyString => Some 0
  | String "e"%char r =>
      let '(neg, r') := sign r in
      match digitpart r' with
      | Some (ds, EmptyString) =>
          Some (if neg then - digits_value ds else digits_value ds)
      | _ => None
      end
  | _ => None
  end.

(** [float(text)]; [None] stands for [ValueError]. *)
Definition py_float (text : string) : option spec_float :=
  let '(neg, s) := sign (lower (strip_c text)) in
  if String.eqb s "inf" || String.eqb s "infinity" then
    Some (S754_infinity neg)
  else if String.eqb s "nan" then Some S754_nan
  else
    match number s with
    | Some (ds, fs, r) =>
        match exponent r with
        | Some e =>
            match digits_value (ds ++ fs) with
            | Zpos m =>
                Some (decimal_to_float neg m (e - Z.of_nat (length fs)))
            | _ => Some (S754_zero neg)
            end
        | None => None
        end
    | None => None
    end.

(** [x == 0.0], [x != 0.0], [0.0 < x] and [bool(x)] on floats. *)
Definition float_zero : spec_float := S754_zero false.
Definition float_ne_zero (x : spec_float) : bool := negb (SFeqb x float_zero).
Definition float_truthy (x : spec_float) : bool := negb (SFeqb x float_zero).
Definition float_positive (x : spec_float) : bool := SFltb float_zero x.

End PyNum.

Import PyStr PyNum.

(* ===================================================================== *)
(** ** The persistent store *)
(* ===================================================================== *)

Module database_ops.

(** Modelled from the spec: [database_ops.get_donor_names] is not part of
    the sources at hand.  The store keeps, for each donor name, the
    ordered sequence of the amounts given; this returns all names. *)
Definition get_donor_names (db : gmap string (list spec_float)) : list string :=
  (map_to_list db).*1.

(** Modelled from the spec: [database_ops.add_donor] is not part of the
    sources at hand.  An idempotent create: a donor already present is
    kept as it is, a new one starts with no donations. *)
Definition add_donor (name : string) (db : gmap string (list spec_float))
  : gmap string (list spec_float) :=
  match db !! name with
  | Some _ => db
  | None => <[name := []]> db
  end.

(** Modelled from the spec: [database_ops.add_donation] is not part of
    the sources at hand.  The amount is appended to the donor's history;
    the donor must exist already ([None] when it does not). *)
Definition add_donation (name : string) (amount : spec_float)
    (db : gmap string (list spec_float))
  : option (gmap string (list spec_float)) :=
  match db !! name with
  | Some ds => Some (<[name := ds ++ [amount]]> db)
  | None => None
  end.

End database_ops.

(* ===================================================================== *)
(** ** Effects: console, store and exceptions *)
(* ===================================================================== *)

Inductive exn := EOFError | ValueError | TypeError | DoesNotExist.

(** What a run does to the outside, in order. *)
Inductive event :=
| EvPrompt (prompt : string)        (* input(prompt) shows its prompt *)
| EvPrint (line : string)           (* print(line) *)
| EvAddDonor (name : string)        (* do.add_donor(name, donor_db) *)
| EvAddDonation (name : string) (amount : spec_float)
                                    (* do.add_donation(name, amount, donor_db) *)
| EvThankYou (name : string) (amount : spec_float)
                                    (* print(thank_you_fmt.format(name, amount)) *)
| EvFromDb                          (* DonorDict.from_db(donor_db) *)
| EvReport                          (* print(in_mem_db.create_report()) *)
| EvLetters                         (* in_mem_db.send_letters() *)
| EvProjection (factor : spec_float) (min_don max_don : option spec_float).
                                    (* in_mem_db.projection(...), printed *)

Record world := World {
  stdin : list string;
  donor_db : gmap string (list spec_float)
}.

Inductive result (A : Type) := Ret (a : A) | Exn (e : exn).
Arguments Ret {A} a.
Arguments Exn {A} e.

Record outcome (A : Type) := Outcome {
  value : result A;
  final : world;
  log : list event
}.
Arguments Outcome {A} value final log.
Arguments value {A} o.
Arguments final {A} o.
Arguments log {A} o.

Definition M (A : Type) : Type := world -> outcome A.

(** [after evs o]: the events [evs] happened before those of [o]. *)
Definition after {A} (evs : list event) (o : outcome A) : outcome A :=
  Outcome (value o) (final o) (evs ++ log o).

#[global] Instance M_ret : MRet M := fun A a w => Outcome (Ret a) w [].

#[global] Instance M_bind : MBind M := fun A B f m w =>
  let o := m w in
  match value o with
  | Ret a => after (log o) (f a (final o))
  | Exn e => Outcome (Exn e) (final o) (log o)
  end.

Definition emit (e : event) : M unit := fun w => Outcome (Ret tt) w [e].

Definition call_add_donor (name : string) : M unit := fun w =>
  Outcome (Ret tt)
          (World (stdin w) (database_ops.add_donor name (donor_db w)))
          [EvAddDonor name].

Definition call_add_donation (name : string) (amount : spec_float) : M unit :=
  fun w =>
    match database_ops.add_donation name amount (donor_db w) with
    | Some db => Outcome (Ret tt) (World (stdin w) db) [EvAddDonation name amount]
    | None => Outcome (Exn DoesNotExist) w [EvAddDonation name amount]
    end.

(* ===================================================================== *)
(** ** mailroom_peewee.py *)
(* ===================================================================== *)

Definition nl : string := String (ascii_of_nat 10) EmptyString.
Definition tab : string := String (ascii_of_nat 9) EmptyString.
Definition dq : string := String (ascii_of_nat 34) EmptyString.

Definition SELECT_PROMPT : string :=
  nl +:+ "Please select from the following options:" +:+ nl +:+
  tab +:+ "1. Send a Thank You" +:+ nl +:+
  tab +:+ "2. Create a Report" +:+ nl +:+
  tab +:+ "3. Send letters to all donors" +:+ nl +:+
  tab +:+ "4. Create contribution projection" +:+ nl +:+
  tab +:+ "5. quit" +:+ nl +:+
  " --> ".

Definition PROMPT_OPTS : list Z := [1; 2; 3; 4; 5].

(** [usr_in in PROMPT_OPTS], where [usr_in] is [None] or an [int]. *)
Definition in_PROMPT_OPTS (usr_in : option Z) : bool :=
  match usr_in with
  | Some n => bool_decide (n ∈ PROMPT_OPTS)
  | None => false
  end.

(** The loop of [get_usr_input], one line of input per turn. *)
Fixpoint get_usr_input_from (usr_in : option Z) (lines : list string)
    (db : gmap string (list spec_float)) : outcome (option Z) :=
  if negb (in_PROMPT_OPTS usr_in) then
    match lines with
    | [] => Outcome (Exn EOFError) (World [] db) [EvPrompt SELECT_PROMPT]
    | line :: rest =>
        after [EvPrompt SELECT_PROMPT]
          match py_int line with
          | None =>
              after [EvPrint (nl +:+ "Please try again. Valid options are: (1, 2, 3, 4, 5)")]
                    (get_usr_input_from usr_in rest db)
          | Some n =>
              if negb (in_PROMPT_OPTS (Some n)) then
                after [EvPrint (nl +:+ "Please select a number between 1 and 5")]
                      (get_usr_input_from (Some n) rest db)
              else get_usr_input_from (Some n) rest db
          end
    end
  else Outcome (Ret usr_in) (World lines db) [].

Definition get_usr_input : M (option Z) := fun w =>
  get_usr_input_from None (stdin w) (donor_db w).

(** [bool(donor)], where [donor] is [None] or a [str]. *)
Definition donor_truthy (donor : option string) : bool :=
  match donor with
  | Some name => negb (is_empty name)
  | None => false
  end.

(** The loop of [prompt_for_donor]. *)
Fixpoint prompt_for_donor_from (prompt : string) (donor : option string)
    (lines : list string) (db : gmap string (list spec_float))
  : outcome (option string) :=
  if negb (donor_truthy donor) then
    match lines with
    | [] => Outcome (Exn EOFError) (World [] db) [EvPrompt prompt]
    | line :: rest =>
        after [EvPrompt prompt]
          (let usr_in := lower (strip line) in
           if startswith usr_in "q" then Outcome (Ret donor) (World rest db) []
           else if String.eqb usr_in "list" then
             after (EvPrint "" ::
                    map (fun name => EvPrint (title name))
                        (database_ops.get_donor_names db))
                   (prompt_for_donor_from prompt donor rest db)
           else
             prompt_for_donor_from prompt
               (Some (join " " (map title (split usr_in)))) rest db)
    end
  else Outcome (Ret donor) (World lines db) [].

Definition prompt_for_donor (prompt : string) : M (option string) := fun w =>
  prompt_for_donor_from prompt None (stdin w) (donor_db w).

(** [not val and val != 0.0], where [val] is [None] or a [float]. *)
Definition val_pending (val : option spec_float) : bool :=
  match val with
  | Some x => negb (float_truthy x) && float_ne_zero x
  | None => true
  end.

(** The loop of [prompt_for_float]. *)
Fixpoint prompt_for_float_from (prompt error_prompt : string)
    (val : option spec_float) (lines : list string)
    (db : gmap string (list spec_float)) : outcome (option spec_float) :=
  if val_pending val then
    match lines with
    | [] => Outcome (Exn EOFError) (World [] db) [EvPrompt prompt]
    | line :: rest =>
        after [EvPrompt prompt]
          (let usr_in := lower (strip line) in
           if startswith usr_in "q" then Outcome (Ret val) (World rest db) []
           else
             match py_float usr_in with
             | Some x => prompt_for_float_from prompt error_prompt (Some x) rest db
             | None =>
                 after [EvPrint error_prompt]
                       (prompt_for_float_from prompt error_prompt val rest db)
             end)
    end
  else Outcome (Ret val) (World lines db) [].

Definition prompt_for_float (prompt error_prompt : string)
  : M (option spec_float) := fun w =>
  prompt_for_float_from prompt error_prompt None (stdin w) (donor_db w).

Definition name_prompt : string :=
  nl +:+ "Please enter name of " +:+ dq +:+ "Thank You" +:+ dq +:+
  " recipient:" +:+ nl +:+
  "(Enter " +:+ dq +:+ "list" +:+ dq +:+ " to see all donors)" +:+ nl +:+
  "(Enter " +:+ dq +:+ "quit" +:+ dq +:+ " to return to main menu)" +:+ nl +:+
  " --> ".

Definition amount_prompt : string :=
  nl +:+ "Please enter the donation amount:" +:+ nl +:+
  "(Enter " +:+ dq +:+ "quit" +:+ dq +:+ " to return to main menu)" +:+ nl +:+
  " --> ".

Definition amount_error_prompt : string :=
  nl +:+ "Donation amount must be a number".

(** [send_thank_you]: [if not donor: return] and [if not donation: return]
    are the two early exits. *)
Definition send_thank_you : M unit :=
  donor ← prompt_for_donor name_prompt;
  match donor with
  | None => mret tt
  | Some name =>
      if is_empty name then mret tt
      else
        donation ← prompt_for_float amount_prompt amount_error_prompt;
        match donation with
        | None => mret tt
        | Some amount =>
            if negb (float_truthy amount) then mret tt
            else
              call_add_donor name;;
              call_add_donation name amount;;
              emit (EvThankYou name amount)
        end
  end.

Definition create_report : M unit := emit EvFromDb;; emit EvReport.

Definition send_letters : M unit := emit EvFromDb;; emit EvLetters.

Definition factor_prompt : string :=
  nl +:+ "Please enter the contribution multiplicative factor:" +:+ nl +:+
  "(Enter " +:+ dq +:+ "quit" +:+ dq +:+ " to return to main menu)" +:+ nl +:+
  " --> ".

Definition min_prompt : string :=
  nl +:+ "Please enter the minimum donation limit:" +:+ nl +:+
  "(Optional, press " +:+ dq +:+ "0" +:+ dq +:+ " to continue)" +:+ nl +:+
  " --> ".

Definition max_prompt : string :=
  nl +:+ "Please enter the maximum donation limit:" +:+ nl +:+
  "(Optional, press " +:+ dq +:+ "0" +:+ dq +:+ " to continue)" +:+ nl +:+
  " --> ".

Definition float_error_prompt : string := nl +:+ "Value must be a float".

(** [create_projection]: [if not factor: return] is the only check made on
    the factor. *)
Definition create_projection : M unit :=
  factor ← prompt_for_float factor_prompt float_error_prompt;
  match factor with
  | None => mret tt
  | Some f =>
      if negb (float_truthy f) then mret tt
      else
        min_don ← prompt_for_float min_prompt float_error_prompt;
        max_don ← prompt_for_float max_prompt float_error_prompt;
        emit EvFromDb;;
        emit (EvProjection f min_don max_don)
  end.

Definition quit_mailroom : M unit := emit (EvPrint "Quitting mailroom...").

(** The handlers that [main] puts in [opt_dict]. *)
Inductive handler :=
| h_send_thank_you | h_create_report | h_send_letters
| h_create_projection | h_quit_mailroom.

Definition run_handler (h : handler) : M unit :=
  match h with
  | h_send_thank_you => send_thank_you
  | h_create_report => create_report
  | h_send_letters => send_letters
  | h_create_projection => create_projection
  | h_quit_mailroom => quit_mailroom
  end.

(** [dict(zip(PROMPT_OPTS, (send_thank_you, ..., quit_mailroom)))] *)
Definition opt_dict : gmap Z handler :=
  list_to_map (zip PROMPT_OPTS
    [h_send_thank_you; h_create_report; h_send_letters;
     h_create_projection; h_quit_mailroom]).

(** [choice != PROMPT_OPTS[-1]]; the initial [choice = ''] is [None]. *)
Definition not_last_opt (choice : option Z) : bool :=
  negb (bool_decide (choice = last PROMPT_OPTS)).

(** [opt_dict.get(choice)(donor_db)]: calling [None] raises [TypeError]. *)
Definition dispatch (choice : option Z) : M unit :=
  match choice ≫= (fun n => opt_dict !! n) with
  | Some h => run_handler h
  | None => fun w => Outcome (Exn TypeError) w []
  end.

(** The loop of [main].  Every turn reads at least one line, so the number
    of turns is bounded by the lines available; [fuel] counts turns and
    [None] means it ran out. *)
Fixpoint main_loop (fuel : nat) (choice : option Z) (w : world)
  : option (outcome unit) :=
  if not_last_opt choice then
    match fuel with
    | O => None
    | S fuel' =>
        let o := get_usr_input w in
        match value o with
        | Exn e => Some (Outcome (Exn e) (final o) (log o))
        | Ret choice' =>
            let o' := after (log o) (dispatch choice' (final o)) in
            match value o' with
            | Exn e => Some (Outcome (Exn e) (final o') (log o'))
            | Ret _ => after (log o') <$> main_loop fuel' choice' (final o')
            end
        end
    end
  else Some (Outcome (Ret tt) w []).

Definition main (w : world) : option (outcome unit) :=
  main_loop (S (length (stdin w))) None w.

(* ===================================================================== *)
(** ** The in-memory ledger and what is derived from it *)
(* ===================================================================== *)

Module DonorDict.

(** Modelled from the spec: the class [DonorDict] (module [donor_dict])
    is not part of the sources at hand.  The ledger maps each donor name
    key to the ordered sequence of that donor's amounts; the amounts are
    the spec's real numbers, taken as rationals.  The total of a donor is
    the sum of the donor's amounts. *)
Definition total (donations : list Q) : Q := fold_right Qplus 0%Q donations.

(** Modelled from the spec: the number of a donor's donations. *)
Definition count (donations : list Q) : nat := length donations.

(** Modelled from the spec: the average is left out ([None]) when there
    is no donation. *)
Definition average (donations : list Q) : option Q :=
  match donations with
  | [] => None
  | _ => Some (total donations / inject_Z (Z.of_nat (count donations)))%Q
  end.

(** Modelled from the spec: the totals of all donors of the ledger. *)
Definition totals (ledger : gmap string (list Q)) : list Q :=
  total <$> (map_to_list ledger).*2.

(** The sum of a list of totals. *)
Definition sum (xs : list Q) : Q := fold_right Qplus 0%Q xs.

(** Modelled from the spec: a bound is set when it is given and is not
    zero ("either may be absent/zero meaning no bound"). *)
Definition bound_set (bound : option Q) : bool :=
  match bound with
  | Some b => negb (Qeq_bool b 0)
  | None => false
  end.

(** [x < y] on rationals, as a test. *)
Definition Qltb (x y : Q) : bool :=
  match (x ?= y)%Q with Lt => true | _ => false end.

(** Modelled from the spec: a donor is excluded from scaling when
    [min_total] is set and [total < min_total], or [max_total] is set
    and [total > max_total]. *)
Definition excluded (min_total max_total : option Q) (t : Q) : bool :=
  bound_set min_total && Qltb t (default 0%Q min_total)
  || bound_set max_total && Qltb (default 0%Q max_total) t.

(** Modelled from the spec: the factor is applied to the sum of the
    totals within the bounds, and the totals out of the bounds are added
    as they are. *)
Definition projection (factor : Q) (min_total max_total : option Q)
    (ledger : gmap string (list Q)) : Q :=
  (factor *
     sum (List.filter (fun t => negb (excluded min_total max_total t))
                      (totals ledger))
   + sum (List.filter (excluded min_total max_total) (totals ledger)))%Q.

(** Modelled from the spec: a report row holds the donor's name, the
    total given, the number of gifts and the average gift. *)
Record row := Row {
  row_name : string;
  row_total : Q;
  row_count : nat;
  row_average : option Q
}.

(** Modelled from the spec: the row of one donor of the ledger. *)
Definition row_of (entry : string * list Q) : row :=
  Row entry.1 (total entry.2) (count entry.2) (average entry.2).

(** Python's order on [str]: lexicographic on the code points. *)
Definition str_leb (a b : string) : bool :=
  match String_as_OT.compare a b with Gt => false | _ => true end.

(** Modelled from the spec: rows go by total, larger first, and rows of
    the same total by name, smaller first. *)
Definition row_leb (r1 r2 : row) : bool :=
  match (row_total r2 ?= row_total r1)%Q with
  | Lt => true
  | Eq => str_leb (row_name r1) (row_name r2)
  | Gt => false
  end.

Definition row_le (r1 r2 : row) : Prop := row_leb r1 r2 = true.

#[global] Instance row_le_dec r1 r2 : Decision (row_le r1 r2).
Proof. unfold row_le. apply _. Defined.

(** Modelled from the spec: one row per donor, in no particular order. *)
Definition rows (ledger : gmap string (list Q)) : list row :=
  row_of <$> map_to_list ledger.

(** Modelled from the spec: the rows of the report, in its order. *)
Definition create_report (ledger : gmap string (list Q)) : list row :=
  merge_sort row_le (rows ledger).

(** What the spec says of the order, read on two rows that follow one
    another in the report. *)
Definition row_before (r1 r2 : row) : Prop :=
  (row_total r2 < row_total r1)%Q
  \/ ((row_total r1 == row_total r2)%Q
      /\ String_as_OT.lt (row_name r1) (row_name r2)).

End DonorDict.

(* ===================================================================== *)
(** ** Donor names as the spec words them *)
(* ===================================================================== *)

Module NameSpec.


















End NameSpec.

(* ===================================================================== *)
(** ** Vocabulary of the statements *)
(* ===================================================================== *)

(** The key that [prompt_for_donor] makes of a line. *)
Definition donor_key (line : string) : string :=
  join " " (map title (split (lower (strip line)))).

(** The calls made to the store, in order. *)
Definition is_db_call (e : event) : bool :=
  match e with
  | EvAddDonor _ | EvAddDonation _ _ => true
  | _ => false
  end.

Definition db_calls (evs : list event) : list event := List.filter is_db_call evs.

(** What holds of every run of a prompt, whatever is typed. *)
Record quiet_prompt {A} (lines : list string) (db : gmap string (list spec_float))
    (o : outcome A) : Prop := {
  qp_db : donor_db (final o) = db;
  qp_calls : db_calls (log o) = [];
  qp_exn : forall e, value o = Exn e -> e = EOFError;
  qp_stdin : stdin (final o) `suffix_of` lines
}.

(** The event of a call to the projection. *)
Definition is_projection (e : event) : bool :=
  match e with EvProjection _ _ _ => true | _ => false end.

(** A run that made no call to the store and left it as it was. *)
Definition unchanged (w : world) (o : outcome unit) : Prop :=
  db_calls (log o) = [] /\ donor_db (final o) = donor_db w.

(** What every handler keeps: it reads lines in order and fails only at
    the end of the input. *)
Definition handler_ok (w : world) (o : outcome unit) : Prop :=
  stdin (final o) `suffix_of` stdin w
  /\ forall e, value o = Exn e -> e = EOFError.

(** Text without a blank in it. *)
Fixpoint space_free (s : string) : bool :=
  match s with
  | EmptyString => true
  | String c s' => negb (is_space c) && space_free s'
  end.

(** A word, as [split] makes them: not empty and without blanks. *)
Definition is_word (w : string) : Prop :=
  is_empty w = false /\ space_free w = true.

(** A capitalized word begins with a character that is not a lower-case
    letter. *)
Definition capitalized (w : string) : Prop :=
  match w with
  | String c _ => is_lower c = false
  | EmptyString => False
  end.

(** Lines after which the float prompt asks again. *)
Definition float_asks_again (line : string) : Prop :=
  startswith (lower (strip line)) "q" = false
  /\ py_float (lower (strip line)) = None.

(** Lines after which the donor prompt asks again: the [list] command, and
    lines that leave an empty name. *)
Definition donor_asks_again (line : string) : Prop :=
  startswith (lower (strip line)) "q" = false
  /\ (String.eqb (lower (strip line)) "list" = true
      \/ is_empty (donor_key line) = true).

(** The [list] command of the donor prompt. *)
Definition is_list_command (line : string) : bool :=
  String.eqb (lower (strip line)) "list".

(** The floats -2.0, -5.0, 10.0 and 25.5. *)
Definition minus_two : spec_float := S754_finite true 4503599627370496 (-51).
Definition minus_five : spec_float := S754_finite true 5629499534213120 (-50).
Definition ten : spec_float := S754_finite false 5629499534213120 (-49).

(** The ledger of the spec's concrete scenario. *)
Definition spec_ledger : gmap string (list Q) :=
  {[ "Alice" := [100%Q]; "Bob" := [50%Q; 50%Q] ]}.

(** A line that is none of the menu's options. *)
Definition no_option (line : string) : Prop :=
  in_PROMPT_OPTS (py_int line) = false.

(** What the menu answers to a line that is no option. *)
Definition menu_complaint (line : string) : string :=
  match py_int line with
  | None => nl +:+ "Please try again. Valid options are: (1, 2, 3, 4, 5)"
  | Some _ => nl +:+ "Please select a number between 1 and 5"
  end.

(** The events of the turns that the menu, the float prompt and the donor
    prompt spend on lines they do not take. *)
Definition menu_turns (skipped : list string) : list event :=
  flat_map (fun line => [EvPrompt SELECT_PROMPT; EvPrint (menu_complaint line)])
           skipped.

Definition float_turns (prompt error_prompt : string) (skipped : list string)
  : list event :=
  flat_map (fun _ : string => [EvPrompt prompt; EvPrint error_prompt]) skipped.

Definition donor_turns (prompt : string) (db : gmap string (list spec_float))
    (skipped : list string) : list event :=
  flat_map (fun line =>
              EvPrompt prompt ::
              (if is_list_command line
               then EvPrint "" :: map (fun name => EvPrint (title name))
                                      (database_ops.get_donor_names db)
               else []))
           skipped.

(** What the float prompt makes of a line: nothing when it asks again,
    [None] for a quit, the number otherwise. *)
Definition float_reply (line : string) : option (option spec_float) :=
  if startswith (lower (strip line)) "q" then Some None
  else Some <$> py_float (lower (strip line)).

(** What the float prompt shows until a line is taken or the input ends. *)
Definition float_asked (prompt error_prompt : string) (skipped : list string)
  : list event :=
  float_turns prompt error_prompt skipped ++ [EvPrompt prompt].

(** Store calls that come two by two: a donor is added, then a donation
    to that donor; the name is not empty and the amount not zero. *)
Fixpoint well_paired (calls : list event) : Prop :=
  match calls with
  | [] => True
  | EvAddDonor name :: EvAddDonation name' amount :: rest =>
      name' = name /\ is_empty name = false /\ float_truthy amount = true
      /\ well_paired rest
  | _ => False
  end.

(** How a run of the main loop may end: after the quit text, or at the end
    of the input. *)
Definition ends_as_main_may (o : outcome unit) : Prop :=
  match value o with
  | Ret _ => exists evs, log o = evs ++ [EvPrint "Quitting mailroom..."]
  | Exn e => e = EOFError /\ stdin (final o) = []
  end.

(** Proof steps used more than once: a fact of characters by going through
    all of them, and membership in a list written out. *)
Ltac each_char c := destruct c as [[] [] [] [] [] [] [] []]; vm_compute; try reflexivity; try congruence.

Ltac pick := repeat first [left; reflexivity | right].

(* ===================================================================== *)
(** ** Sanity checks on concrete runs *)
(* ===================================================================== *)

Example float_tenth :
  py_float "0.1" = Some (S754_finite false 7205759403792794 (-56)).
Proof. vm_compute. reflexivity. Qed.

Example float_underflow : py_float "1e-400" = Some (S754_zero false).
Proof. vm_compute. reflexivity. Qed.

Example float_overflow : py_float "1e400" = Some (S754_infinity false).
Proof. vm_compute. reflexivity. Qed.

Example float_bogus : py_float "12 dollars" = None.
Proof. vm_compute. reflexivity. Qed.

(** [int] takes the C locale's blanks off a number, not the separators
    that [str.strip] takes off as well. *)
Example int_blanks :
  py_int (String (ascii_of_nat 9) " 4 ") = Some 4
  /\ py_int (String (ascii_of_nat 28) "4") = None
  /\ py_int ("4" +:+ String (ascii_of_nat 31) "") = None
  /\ py_float (String (ascii_of_nat 28) "4") = None.
Proof. vm_compute. repeat split; reflexivity. Qed.

(** [int] reads 4300 digits and no more. *)
Example int_digit_limit :
  py_int (string_of_list_ascii (repeat "0"%char 4299) +:+ "1") = Some 1
  /\ py_int (string_of_list_ascii (repeat "0"%char 4300) +:+ "1") = None.
Proof. vm_compute. split; reflexivity. Qed.

(** A line with a separator before the digit is no option of the menu:
    the menu complains and asks again. *)
Example menu_separator_run :
  get_usr_input (World [String (ascii_of_nat 28) "4"; "4"] ∅)
  = Outcome (Ret (Some 4)) (World [] ∅)
      [EvPrompt SELECT_PROMPT;
       EvPrint (menu_complaint (String (ascii_of_nat 28) "4"));
       EvPrompt SELECT_PROMPT]
  /\ menu_complaint (String (ascii_of_nat 28) "4")
     = nl +:+ "Please try again. Valid options are: (1, 2, 3, 4, 5)".
Proof. vm_compute. split; reflexivity. Qed.

(** A word is capitalized anew after a character that is no letter. *)
Example key_of_oneil :
  donor_key "o'neil  mary-jane" = "O'Neil Mary-Jane".
Proof. vm_compute. reflexivity. Qed.

Example thank_you_run :
  log (send_thank_you (World ["jane   DOE"; "abc"; "5"] ∅)) =
  [EvPrompt name_prompt; EvPrompt amount_prompt; EvPrint amount_error_prompt;
   EvPrompt amount_prompt; EvAddDonor "Jane Doe";
   EvAddDonation "Jane Doe" (S754_finite false 5629499534213120 (-50));
   EvThankYou "Jane Doe" (S754_finite false 5629499534213120 (-50))].
Proof. vm_compute. reflexivity. Qed.


Example spec_scenario_projection :
  (DonorDict.projection 2 None None spec_ledger == 400)%Q
  /\ (DonorDict.projection 2 (Some 100%Q) (Some 100%Q) spec_ledger == 400)%Q
  /\ (DonorDict.projection 2 None (Some 99%Q) spec_ledger == 200)%Q.
Proof. vm_compute. repeat split. Qed.

Example spec_scenario_report :
  DonorDict.row_name <$> DonorDict.create_report spec_ledger = ["Alice"; "Bob"].
Proof. vm_compute. reflexivity. Qed.

(* ===================================================================== *)
(** ** The prompts and the two flows *)
(* ===================================================================== *)

(** *** Outcomes *)

Lemma db_calls_app evs1 evs2 : db_calls (evs1 ++ evs2) = db_calls evs1 ++ db_calls evs2.
Proof. apply List.filter_app. Qed.

Lemma not_in_db_calls (e : event) (evs : list event) :
  is_db_call e = true -> db_calls evs = [] -> ~ In e evs.
Proof.
  intros He Hnil Hin.
  assert (H : In e (db_calls evs)) by (apply List.filter_In; auto).
  rewrite Hnil in H. exact H.
Qed.

Lemma suffix_In {A} (l1 l2 : list A) (x : A) : l1 `suffix_of` l2 -> In x l1 -> In x l2.
Proof. intros [k ->] H. apply in_or_app. right. exact H. Qed.

Lemma quiet_after {A} evs lines db (o : outcome A) :
  db_calls evs = [] -> quiet_prompt lines db o -> quiet_prompt lines db (after evs o).
Proof.
  intros Hevs [H1 H2 H3 H4]. split; simpl; auto.
  rewrite db_calls_app, Hevs, H2. reflexivity.
Qed.

Lemma quiet_longer {A} line lines db (o : outcome A) :
  quiet_prompt lines db o -> quiet_prompt (line :: lines) db o.
Proof. intros [H1 H2 H3 H4]. split; simpl; auto. by apply suffix_cons_r. Qed.

Lemma quiet_Ret {A} (a : A) lines db :
  quiet_prompt lines db (Outcome (Ret a) (World lines db) []).
Proof. split; simpl; auto; discriminate. Qed.

Lemma quiet_EOF {A} evs db :
  db_calls evs = [] -> quiet_prompt (A:=A) [] db (Outcome (Exn EOFError) (World [] db) evs).
Proof. intros. split; simpl; auto. congruence. Qed.

Lemma db_calls_prints (names : list string) :
  db_calls (EvPrint "" :: map (fun name => EvPrint (title name)) names) = [].
Proof. induction names as [|n ns IH]; [reflexivity|exact IH]. Qed.

Create HintDb quiet.
#[global] Hint Resolve quiet_Ret quiet_longer db_calls_prints : quiet.
#[global] Hint Extern 1 (quiet_prompt _ _ (after _ _)) =>
  apply quiet_after; [first [reflexivity | apply db_calls_prints]|] : quiet.
#[global] Hint Extern 1 (quiet_prompt [] _ (Outcome (Exn EOFError) _ _)) =>
  apply quiet_EOF; reflexivity : quiet.

(** *** The float prompt *)

Section FloatPrompt.

Variables prompt error_prompt : string.

Lemma val_pending_Some x : val_pending (Some x) = false.
Proof.
  unfold val_pending, float_ne_zero, float_truthy.
  destruct (SFeqb x float_zero); reflexivity.
Qed.

(** Once a number is read the loop is over. *)
Lemma prompt_for_float_from_Some x lines db :
  prompt_for_float_from prompt error_prompt (Some x) lines db
  = Outcome (Ret (Some x)) (World lines db) [].
Proof.
  destruct lines; cbn [prompt_for_float_from]; rewrite val_pending_Some; reflexivity.
Qed.

(** One turn of the loop. *)
Lemma prompt_for_float_from_cons line rest db :
  prompt_for_float_from prompt error_prompt None (line :: rest) db =
  after [EvPrompt prompt]
    (if startswith (lower (strip line)) "q" then Outcome (Ret None) (World rest db) []
     else match py_float (lower (strip line)) with
          | Some x => Outcome (Ret (Some x)) (World rest db) []
          | None =>
              after [EvPrint error_prompt]
                    (prompt_for_float_from prompt error_prompt None rest db)
          end).
Proof.
  cbn [prompt_for_float_from val_pending].
  destruct (startswith _ _); [reflexivity|].
  destruct (py_float _); [|reflexivity].
  rewrite prompt_for_float_from_Some. reflexivity.
Qed.

Lemma prompt_for_float_quiet lines db :
  quiet_prompt lines db (prompt_for_float_from prompt error_prompt None lines db).
Proof.
  induction lines as [|line rest IH]; [cbn; auto with quiet|].
  rewrite prompt_for_float_from_cons.
  destruct (startswith _ _); [auto with quiet|].
  destruct (py_float _); auto 6 with quiet.
Qed.

(** The value of the float prompt is [None] or a number read from one of
    the lines; while the prompt loops, nothing has been read yet. *)
Lemma prompt_for_float_value lines db v :
  value (prompt_for_float_from prompt error_prompt None lines db) = Ret v ->
  v = None \/
  exists line x, In line lines /\ v = Some x
    /\ startswith (lower (strip line)) "q" = false
    /\ py_float (lower (strip line)) = Some x.
Proof.
  induction lines as [|line rest IH]; [discriminate|].
  rewrite prompt_for_float_from_cons. simpl.
  destruct (startswith _ _) eqn:Hq; simpl.
  - intros [= <-]. left; reflexivity.
  - destruct (py_float _) as [x|] eqn:Hf; simpl.
    + intros [= <-]. right. exists line, x. simpl; auto.
    + intros H. destruct (IH H) as [->|(l & x & Hin & -> & H1 & H2)]; [left; reflexivity|].
      right. exists l, x. simpl; auto.
Qed.

(** The float prompt never calls the projection. *)
Lemma prompt_for_float_no_projection lines db :
  forall ev, In ev (log (prompt_for_float_from prompt error_prompt None lines db)) ->
             is_projection ev = false.
Proof.
  induction lines as [|line rest IH]; intros ev.
  - simpl. intros [<-|[]]. reflexivity.
  - rewrite prompt_for_float_from_cons. simpl. intros [<-|H]; [reflexivity|].
    destruct (startswith _ _); [destruct H|].
    destruct (py_float _); [destruct H|].
    simpl in H. destruct H as [<-|H]; [reflexivity|]. apply IH. exact H.
Qed.

Lemma prompt_for_float_run w :
  quiet_prompt (stdin w) (donor_db w) (prompt_for_float prompt error_prompt w).
Proof. apply prompt_for_float_quiet. Qed.

Lemma prompt_for_float_read w x :
  value (prompt_for_float prompt error_prompt w) = Ret (Some x) ->
  exists line, In line (stdin w)
    /\ startswith (lower (strip line)) "q" = false
    /\ py_float (lower (strip line)) = Some x.
Proof.
  intros H. apply prompt_for_float_value in H.
  destruct H as [H|(line & y & Hin & [= ->] & Hq & Hf)]; [discriminate|eauto].
Qed.


(** A line that is neither a number nor a quit is answered with the error
    text, and the prompt starts over on the lines that follow. *)
Lemma prompt_for_float_bogus line rest db :
  startswith (lower (strip line)) "q" = false ->
  py_float (lower (strip line)) = None ->
  prompt_for_float prompt error_prompt (World (line :: rest) db) =
  after [EvPrompt prompt; EvPrint error_prompt]
        (prompt_for_float prompt error_prompt (World rest db)).
Proof.
  intros Hq Hf. unfold prompt_for_float. cbn [stdin donor_db].
  rewrite prompt_for_float_from_cons, Hq, Hf. reflexivity.
Qed.

End FloatPrompt.

(** *** The donor prompt *)

Section DonorPrompt.

Variable prompt : string.

Lemma prompt_for_donor_from_truthy donor lines db :
  donor_truthy donor = true ->
  prompt_for_donor_from prompt donor lines db = Outcome (Ret donor) (World lines db) [].
Proof. intros H. destruct lines; cbn [prompt_for_donor_from]; rewrite H; reflexivity. Qed.

(** One turn of the loop. *)
Lemma prompt_for_donor_from_cons donor line rest db :
  donor_truthy donor = false ->
  prompt_for_donor_from prompt donor (line :: rest) db =
  after [EvPrompt prompt]
    (if startswith (lower (strip line)) "q" then Outcome (Ret donor) (World rest db) []
     else if String.eqb (lower (strip line)) "list" then
       after (EvPrint "" :: map (fun name => EvPrint (title name))
                                (database_ops.get_donor_names db))
             (prompt_for_donor_from prompt donor rest db)
     else prompt_for_donor_from prompt (Some (donor_key line)) rest db).
Proof. intros H. cbn [prompt_for_donor_from]. rewrite H. reflexivity. Qed.

Lemma prompt_for_donor_quiet lines db : forall donor,
  quiet_prompt lines db (prompt_for_donor_from prompt donor lines db).
Proof.
  induction lines as [|line rest IH]; intros donor.
  - cbn [prompt_for_donor_from]. destruct (negb _); auto with quiet.
  - destruct (donor_truthy donor) eqn:Ht.
    + rewrite prompt_for_donor_from_truthy by exact Ht. auto with quiet.
    + rewrite prompt_for_donor_from_cons by exact Ht.
      destruct (startswith _ _); [auto with quiet|].
      destruct (String.eqb _ _); auto 6 with quiet.
Qed.

(** The value of the donor prompt: what it started with, or the key made
    from one of the lines, which is not a quit and not [list]. *)
Lemma prompt_for_donor_value lines db : forall donor r,
  value (prompt_for_donor_from prompt donor lines db) = Ret r ->
  r = donor \/
  exists line, In line lines /\ r = Some (donor_key line)
    /\ startswith (lower (strip line)) "q" = false
    /\ String.eqb (lower (strip line)) "list" = false.
Proof.
  induction lines as [|line rest IH]; intros donor r.
  - cbn [prompt_for_donor_from]. destruct (negb _); [discriminate|].
    intros [= <-]. left; reflexivity.
  - destruct (donor_truthy donor) eqn:Ht.
    + rewrite prompt_for_donor_from_truthy by exact Ht. intros [= <-]. left; reflexivity.
    + rewrite prompt_for_donor_from_cons by exact Ht. simpl.
      destruct (startswith _ _) eqn:Hq; simpl.
      * intros [= <-]. left; reflexivity.
      * destruct (String.eqb _ _) eqn:Hl; simpl; intros H; apply IH in H.
        -- destruct H as [->|(l & Hin & -> & H1 & H2)]; [left; reflexivity|].
           right. exists l. simpl; auto.
        -- destruct H as [->|(l & Hin & -> & H1 & H2)].
           ++ right. exists line. simpl; auto.
           ++ right. exists l. simpl; auto.
Qed.

Lemma prompt_for_donor_run w :
  quiet_prompt (stdin w) (donor_db w) (prompt_for_donor prompt w).
Proof. apply prompt_for_donor_quiet. Qed.

(** A line that names a donor is taken at once. *)
Lemma prompt_for_donor_named line rest db :
  startswith (lower (strip line)) "q" = false ->
  String.eqb (lower (strip line)) "list" = false ->
  is_empty (donor_key line) = false ->
  prompt_for_donor prompt (World (line :: rest) db) =
  Outcome (Ret (Some (donor_key line))) (World rest db) [EvPrompt prompt].
Proof.
  intros Hq Hl Hk. unfold prompt_for_donor. cbn [stdin donor_db].
  rewrite prompt_for_donor_from_cons by reflexivity. rewrite Hq, Hl.
  rewrite prompt_for_donor_from_truthy; [reflexivity|].
  cbn [donor_truthy]. rewrite Hk. reflexivity.
Qed.

End DonorPrompt.

(** *** The store *)

Lemma add_donation_after_add_donor name amount (db : gmap string (list spec_float)) :
  database_ops.add_donation name amount (database_ops.add_donor name db) =
  Some (<[name := default [] (db !! name) ++ [amount]]> db).
Proof.
  unfold database_ops.add_donation, database_ops.add_donor.
  destruct (db !! name) as [ds|] eqn:Hl.
  - rewrite Hl. reflexivity.
  - rewrite lookup_insert_eq, insert_insert_eq. reflexivity.
Qed.

(** *** The two flows, case by case *)

Lemma send_thank_you_unfold w :
  send_thank_you w =
  let o1 := prompt_for_donor name_prompt w in
  match value o1 with
  | Exn e => Outcome (Exn e) (final o1) (log o1)
  | Ret None => Outcome (Ret tt) (final o1) (log o1 ++ [])
  | Ret (Some name) =>
      if is_empty name then Outcome (Ret tt) (final o1) (log o1 ++ [])
      else
        let o2 := prompt_for_float amount_prompt amount_error_prompt (final o1) in
        match value o2 with
        | Exn e => Outcome (Exn e) (final o2) (log o1 ++ log o2)
        | Ret None => Outcome (Ret tt) (final o2) (log o1 ++ log o2 ++ [])
        | Ret (Some amount) =>
            if float_truthy amount
            then Outcome (Ret tt)
                   (World (stdin (final o2))
                      (<[name := default [] (donor_db (final o2) !! name) ++ [amount]]>
                         (donor_db (final o2))))
                   (log o1 ++ log o2 ++
                      [EvAddDonor name; EvAddDonation name amount; EvThankYou name amount])
            else Outcome (Ret tt) (final o2) (log o1 ++ log o2 ++ [])
        end
  end.
Proof.
  unfold send_thank_you, mbind, M_bind. cbv zeta.
  destruct (value (prompt_for_donor name_prompt w)) as [[name|]|e]; try reflexivity.
  destruct (is_empty name); [reflexivity|].
  set (o1 := prompt_for_donor name_prompt w).
  destruct (value (prompt_for_float _ _ (final o1))) as [[amount|]|e]; try reflexivity.
  destruct (float_truthy amount); [|reflexivity].
  unfold call_add_donor, call_add_donation. cbn [negb value final log stdin donor_db].
  rewrite !add_donation_after_add_donor. unfold after; cbn [value final log].
  reflexivity.
Qed.

Lemma create_projection_unfold w :
  create_projection w =
  let o1 := prompt_for_float factor_prompt float_error_prompt w in
  match value o1 with
  | Exn e => Outcome (Exn e) (final o1) (log o1)
  | Ret None => Outcome (Ret tt) (final o1) (log o1 ++ [])
  | Ret (Some f) =>
      if float_truthy f then
        let o2 := prompt_for_float min_prompt float_error_prompt (final o1) in
        match value o2 with
        | Exn e => Outcome (Exn e) (final o2) (log o1 ++ log o2)
        | Ret min_don =>
            let o3 := prompt_for_float max_prompt float_error_prompt (final o2) in
            match value o3 with
            | Exn e => Outcome (Exn e) (final o3) (log o1 ++ log o2 ++ log o3)
            | Ret max_don =>
                Outcome (Ret tt) (final o3)
                  (log o1 ++ log o2 ++ log o3 ++ [EvFromDb; EvProjection f min_don max_don])
            end
        end
      else Outcome (Ret tt) (final o1) (log o1 ++ [])
  end.
Proof.
  unfold create_projection, mbind, M_bind. cbv zeta.
  destruct (value (prompt_for_float factor_prompt _ w)) as [[f|]|e]; try reflexivity.
  destruct (float_truthy f); [|reflexivity]. cbn [negb].
  set (o1 := prompt_for_float factor_prompt _ w).
  destruct (value (prompt_for_float min_prompt _ (final o1))) as [mn|e]; [|reflexivity].
  set (o2 := prompt_for_float min_prompt _ (final o1)).
  destruct (value (prompt_for_float max_prompt _ (final o2))) as [mx|e]; reflexivity.
Qed.

(** C9.  The thank-you flow touches the store only when it has a name and
    an amount that is not zero, and then it calls [add_donor] and
    [add_donation], in this order.  When the name prompt gives no name, or
    the amount prompt gives [None] or zero, or the input ends, no call is
    made and the store is as it was. *)
Theorem C9_thank_you_all_or_nothing (w : world) :
  let o1 := prompt_for_donor name_prompt w in
  let o2 := prompt_for_float amount_prompt amount_error_prompt (final o1) in
  let o := send_thank_you w in
  match value o1 with
  | Ret (Some name) =>
      if is_empty name then unchanged w o
      else
        match value o2 with
        | Ret (Some amount) =>
            if float_truthy amount then
              db_calls (log o) = [EvAddDonor name; EvAddDonation name amount]
              /\ database_ops.add_donation name amount
                   (database_ops.add_donor name (donor_db w))
                 = Some (donor_db (final o))
            else unchanged w o
        | _ => unchanged w o
        end
  | _ => unchanged w o
  end.
Proof.
  cbv zeta. rewrite send_thank_you_unfold. cbv zeta.
  destruct (prompt_for_donor_run name_prompt w) as [D1 C1 _ _].
  set (o1 := prompt_for_donor name_prompt w) in *.
  destruct (prompt_for_float_run amount_prompt amount_error_prompt (final o1))
    as [D2 C2 _ _].
  set (o2 := prompt_for_float amount_prompt amount_error_prompt (final o1)) in *.
  assert (Q1 : forall v, unchanged w (Outcome v (final o1) (log o1 ++ []))).
  { intros v. split; simpl; [|exact D1]. rewrite db_calls_app, C1. reflexivity. }
  assert (Q1' : forall v, unchanged w (Outcome v (final o1) (log o1))).
  { intros v. split; simpl; [exact C1|exact D1]. }
  assert (Q2 : forall v, unchanged w (Outcome v (final o2) (log o1 ++ log o2 ++ []))).
  { intros v. split; simpl; [|congruence]. rewrite !db_calls_app, C1, C2. reflexivity. }
  assert (Q2' : forall v, unchanged w (Outcome v (final o2) (log o1 ++ log o2))).
  { intros v. split; simpl; [|congruence]. rewrite !db_calls_app, C1, C2. reflexivity. }
  destruct (value o1) as [[name|]|e]; auto.
  destruct (is_empty name); auto.
  destruct (value o2) as [[amount|]|e]; auto.
  destruct (float_truthy amount); auto.
  cbn [log final donor_db]. split.
  - rewrite !db_calls_app, C1, C2. reflexivity.
  - rewrite add_donation_after_add_donor. rewrite D2, D1. reflexivity.
Qed.

(** The thank-you flow raises nothing but the end of the input. *)
Lemma send_thank_you_exn w e : value (send_thank_you w) = Exn e -> e = EOFError.
Proof.
  rewrite send_thank_you_unfold. cbv zeta.
  destruct (prompt_for_donor_run name_prompt w) as [_ _ E1 _].
  set (o1 := prompt_for_donor name_prompt w) in *.
  destruct (prompt_for_float_run amount_prompt amount_error_prompt (final o1))
    as [_ _ E2 _].
  set (o2 := prompt_for_float amount_prompt amount_error_prompt (final o1)) in *.
  destruct (value o1) as [[name|]|e1]; try discriminate.
  - destruct (is_empty name); [discriminate|].
    destruct (value o2) as [[amount|]|e2]; try discriminate.
    + destruct (float_truthy amount); discriminate.
    + simpl. intros [= <-]. apply E2. reflexivity.
  - simpl. intros [= <-]. apply E1. reflexivity.
Qed.

(** C2 (amended).  Every amount that the thank-you flow records is a
    number that is not zero, read by [float] from a line of the input that
    is not a quit.  The sign is not looked at: a negative amount is
    recorded as well. *)
Theorem C2_recorded_amount_is_nonzero_number
    (w : world) (name : string) (amount : spec_float) :
  In (EvAddDonation name amount) (log (send_thank_you w)) ->
  float_truthy amount = true
  /\ exists line, In line (stdin w)
       /\ startswith (lower (strip line)) "q" = false
       /\ py_float (lower (strip line)) = Some amount.
Proof.
  rewrite send_thank_you_unfold. cbv zeta.
  destruct (prompt_for_donor_run name_prompt w) as [_ C1 _ S1].
  set (o1 := prompt_for_donor name_prompt w) in *.
  destruct (prompt_for_float_run amount_prompt amount_error_prompt (final o1))
    as [_ C2 _ _].
  pose proof (prompt_for_float_read amount_prompt amount_error_prompt (final o1)) as R2.
  set (o2 := prompt_for_float amount_prompt amount_error_prompt (final o1)) in *.
  assert (N1 : ~ In (EvAddDonation name amount) (log o1))
    by (apply not_in_db_calls; auto).
  assert (N2 : ~ In (EvAddDonation name amount) (log o2))
    by (apply not_in_db_calls; auto).
  assert (Q : In (EvAddDonation name amount) (log o1 ++ log o2 ++ []) -> False).
  { rewrite !in_app_iff. simpl. tauto. }
  assert (Q' : In (EvAddDonation name amount) (log o1 ++ log o2) -> False).
  { rewrite !in_app_iff. tauto. }
  assert (Q1 : In (EvAddDonation name amount) (log o1 ++ []) -> False).
  { rewrite !in_app_iff. simpl. tauto. }
  destruct (value o1) as [[name'|]|e]; cbn [log]; try tauto.
  destruct (is_empty name'); cbn [log]; try tauto.
  destruct (value o2) as [[amount'|]|e]; cbn [log]; try tauto.
  destruct (float_truthy amount') eqn:Ht; cbn [log]; try tauto.
  rewrite !in_app_iff. simpl.
  intros [H|[H|[H|[H|[H|[]]]]]]; try tauto; try discriminate.
  injection H as <- <-. split; [exact Ht|].
  destruct (R2 amount' eq_refl) as (line & Hin & Hq & Hf).
  exists line. split; [|auto]. eapply suffix_In; eauto.
Qed.

(** C1 (amended).  The factor that the projection flow hands to the engine
    is a number that is not zero: [float] read it from a line of the input
    that is not a quit.  A line that is not a number is asked again and a
    zero factor ends the flow, so neither reaches the engine; the sign of
    the factor is not looked at, and a negative one is handed on. *)
Theorem C1_factor_is_nonzero_number
    (w : world) (factor : spec_float) (min_don max_don : option spec_float) :
  In (EvProjection factor min_don max_don) (log (create_projection w)) ->
  float_truthy factor = true
  /\ exists line, In line (stdin w)
       /\ startswith (lower (strip line)) "q" = false
       /\ py_float (lower (strip line)) = Some factor.
Proof.
  rewrite create_projection_unfold. cbv zeta.
  pose proof (prompt_for_float_read factor_prompt float_error_prompt w) as R1.
  pose proof (prompt_for_float_no_projection factor_prompt float_error_prompt
                (stdin w) (donor_db w)) as P1.
  fold (prompt_for_float factor_prompt float_error_prompt w) in P1.
  set (o1 := prompt_for_float factor_prompt float_error_prompt w) in *.
  pose proof (prompt_for_float_no_projection min_prompt float_error_prompt
                (stdin (final o1)) (donor_db (final o1))) as P2.
  fold (prompt_for_float min_prompt float_error_prompt (final o1)) in P2.
  set (o2 := prompt_for_float min_prompt float_error_prompt (final o1)) in *.
  pose proof (prompt_for_float_no_projection max_prompt float_error_prompt
                (stdin (final o2)) (donor_db (final o2))) as P3.
  fold (prompt_for_float max_prompt float_error_prompt (final o2)) in P3.
  set (o3 := prompt_for_float max_prompt float_error_prompt (final o2)) in *.
  set (ev := EvProjection factor min_don max_don).
  assert (N : forall evs, (forall e, In e evs -> is_projection e = false) -> ~ In ev evs).
  { intros evs H Hin. apply H in Hin. discriminate. }
  apply N in P1, P2, P3.
  destruct (value o1) as [[f|]|e]; cbn [log]; rewrite ?in_app_iff; simpl; try tauto.
  destruct (float_truthy f) eqn:Ht; cbn [log]; rewrite ?in_app_iff; simpl; try tauto.
  destruct (value o2) as [mn|e]; cbn [log]; rewrite ?in_app_iff; simpl; try tauto.
  destruct (value o3) as [mx|e]; cbn [log]; rewrite ?in_app_iff; simpl; try tauto.
  intros [H|[H|[H|[H|[H|[]]]]]]; try tauto; try discriminate.
  unfold ev in H. injection H as <- <- <-. split; [exact Ht|].
  apply R1. reflexivity.
Qed.

(** C3 (amended).  A donation amount that is not a number does not stop the
    program.  The thank-you flow prints its error text, asks for the amount
    again and goes on as if the line had not been typed; it never ends in
    [ValueError]. *)
Theorem C3_bogus_amount_is_asked_again
    (name_line bogus : string) (rest : list string)
    (db : gmap string (list spec_float)) :
  startswith (lower (strip name_line)) "q" = false ->
  String.eqb (lower (strip name_line)) "list" = false ->
  is_empty (donor_key name_line) = false ->
  startswith (lower (strip bogus)) "q" = false ->
  py_float (lower (strip bogus)) = None ->
  let o := send_thank_you (World (name_line :: bogus :: rest) db) in
  let o' := send_thank_you (World (name_line :: rest) db) in
  value o <> Exn ValueError
  /\ value o = value o'
  /\ final o = final o'
  /\ log o = EvPrompt name_prompt :: EvPrompt amount_prompt
               :: EvPrint amount_error_prompt :: tail (log o').
Proof.
  intros Hq Hl Hk Hbq Hbf. cbv zeta. split.
  { intros H. apply send_thank_you_exn in H. discriminate. }
  rewrite !send_thank_you_unfold. cbv zeta.
  rewrite !prompt_for_donor_named by assumption. cbn [value final log].
  rewrite Hk.
  rewrite (prompt_for_float_bogus _ _ bogus) by assumption.
  set (o2 := prompt_for_float amount_prompt amount_error_prompt (World rest db)).
  unfold after. cbn [value final log].
  destruct (value o2) as [[amount|]|e]; [|auto..].
  destruct (float_truthy amount); auto.
Qed.

(* ===================================================================== *)
(** ** The menu and the main loop *)
(* ===================================================================== *)

(** *** The menu *)

Lemma get_usr_input_from_done usr_in lines db :
  in_PROMPT_OPTS usr_in = true ->
  get_usr_input_from usr_in lines db = Outcome (Ret usr_in) (World lines db) [].
Proof. intros H. destruct lines; cbn [get_usr_input_from]; rewrite H; reflexivity. Qed.

Lemma get_usr_input_quiet lines db : forall usr_in,
  quiet_prompt lines db (get_usr_input_from usr_in lines db).
Proof.
  induction lines as [|line rest IH]; intros usr_in.
  - cbn [get_usr_input_from]. destruct (negb _); [apply quiet_EOF; reflexivity|apply quiet_Ret].
  - cbn [get_usr_input_from]. destruct (negb (in_PROMPT_OPTS usr_in)); [|apply quiet_Ret].
    apply quiet_after; [reflexivity|]. apply quiet_longer.
    destruct (py_int line) as [n|].
    + destruct (negb (in_PROMPT_OPTS (Some n))); [|apply IH].
      apply quiet_after; [reflexivity|apply IH].
    + apply quiet_after; [reflexivity|apply IH].
Qed.

(** The menu loop ends only on a choice that is one of the options. *)
Lemma get_usr_input_from_in_opts lines db : forall usr_in choice,
  value (get_usr_input_from usr_in lines db) = Ret choice ->
  in_PROMPT_OPTS choice = true.
Proof.
  induction lines as [|line rest IH]; intros usr_in choice;
    cbn [get_usr_input_from]; destruct (in_PROMPT_OPTS usr_in) eqn:Hin; cbn [negb].
  - intros [= <-]. exact Hin.
  - discriminate.
  - intros [= <-]. exact Hin.
  - cbn [after value]. destruct (py_int line) as [n|].
    + destruct (negb (in_PROMPT_OPTS (Some n))); cbn [after value]; apply IH.
    + cbn [after value]. apply IH.
Qed.

(** A menu loop that has to ask reads at least one line. *)
Lemma get_usr_input_from_reads lines db usr_in choice :
  in_PROMPT_OPTS usr_in = false ->
  value (get_usr_input_from usr_in lines db) = Ret choice ->
  (length (stdin (final (get_usr_input_from usr_in lines db))) < length lines)%nat.
Proof.
  intros Hin. destruct lines as [|line rest]; cbn [get_usr_input_from]; rewrite Hin; cbn [negb].
  - discriminate.
  - intros _. cbn [after final].
    assert (L : forall u, (length (stdin (final (get_usr_input_from u rest db)))
                           <= length rest)%nat).
    { intros u. apply suffix_length, get_usr_input_quiet. }
    destruct (py_int line) as [n|].
    + destruct (negb (in_PROMPT_OPTS (Some n))); cbn [after final length];
        specialize (L (Some n)); lia.
    + cbn [after final length]. specialize (L usr_in). lia.
Qed.

Lemma in_PROMPT_OPTS_handler choice :
  in_PROMPT_OPTS choice = true ->
  exists n h, choice = Some n /\ n ∈ PROMPT_OPTS /\ opt_dict !! n = Some h.
Proof.
  destruct choice as [n|]; [|discriminate]. cbn [in_PROMPT_OPTS].
  intros H. apply bool_decide_eq_true in H.
  exists n. pose proof H as H'. unfold PROMPT_OPTS in H'.
  repeat (apply elem_of_cons in H' as [->|H']);
    [eexists; split; [reflexivity|split; [exact H|reflexivity]]..|].
  apply elem_of_nil in H'. destruct H'.
Qed.


Lemma emit_ok e w : handler_ok w (emit e w).
Proof. split; simpl; [done|discriminate]. Qed.

Lemma send_thank_you_ok w : handler_ok w (send_thank_you w).
Proof.
  split; [|apply send_thank_you_exn].
  rewrite send_thank_you_unfold. cbv zeta.
  destruct (prompt_for_donor_run name_prompt w) as [_ _ _ S1].
  set (o1 := prompt_for_donor name_prompt w) in *.
  destruct (prompt_for_float_run amount_prompt amount_error_prompt (final o1))
    as [_ _ _ S2].
  set (o2 := prompt_for_float amount_prompt amount_error_prompt (final o1)) in *.
  assert (S12 : stdin (final o2) `suffix_of` stdin w) by (etrans; eauto).
  destruct (value o1) as [[name|]|e1]; auto.
  destruct (is_empty name); auto.
  destruct (value o2) as [[amount|]|e2]; auto.
  destruct (float_truthy amount); auto.
Qed.

Lemma create_projection_ok w : handler_ok w (create_projection w).
Proof.
  rewrite create_projection_unfold. cbv zeta.
  destruct (prompt_for_float_run factor_prompt float_error_prompt w) as [_ _ E1 S1].
  set (o1 := prompt_for_float factor_prompt float_error_prompt w) in *.
  destruct (prompt_for_float_run min_prompt float_error_prompt (final o1)) as [_ _ E2 S2].
  set (o2 := prompt_for_float min_prompt float_error_prompt (final o1)) in *.
  destruct (prompt_for_float_run max_prompt float_error_prompt (final o2)) as [_ _ E3 S3].
  set (o3 := prompt_for_float max_prompt float_error_prompt (final o2)) in *.
  assert (S12 : stdin (final o2) `suffix_of` stdin w) by (etrans; eauto).
  assert (S13 : stdin (final o3) `suffix_of` stdin w) by (etrans; eauto).
  unfold handler_ok.
  destruct (value o1) as [[f|]|e1]; cbn [value final];
    [|split; [auto|discriminate]|split; [auto|intros ? [= <-]; auto]].
  destruct (float_truthy f); [|split; [auto|discriminate]].
  destruct (value o2) as [mn|e2]; cbn [value final];
    [|split; [auto|intros ? [= <-]; auto]].
  destruct (value o3) as [mx|e3]; cbn [value final];
    [split; [auto|discriminate]|split; [auto|intros ? [= <-]; auto]].
Qed.

Lemma run_handler_ok h w : handler_ok w (run_handler h w).
Proof.
  destruct h; cbn [run_handler].
  - apply send_thank_you_ok.
  - split; simpl; [done|discriminate].
  - split; simpl; [done|discriminate].
  - apply create_projection_ok.
  - apply emit_ok.
Qed.

(** With one turn of fuel per line and one to spare, the main loop comes
    to an end, and the only failure it can end in is the end of the
    input. *)
Lemma main_loop_ends : forall fuel choice w,
  (length (stdin w) < fuel)%nat ->
  exists o, main_loop fuel choice w = Some o
            /\ forall e, value o = Exn e -> e = EOFError.
Proof.
  induction fuel as [|fuel IH]; intros choice w Hlen; [lia|].
  cbn [main_loop]. destruct (not_last_opt choice).
  2:{ eexists; split; [reflexivity|discriminate]. }
  pose proof (get_usr_input_quiet (stdin w) (donor_db w) None) as [_ _ E1 _].
  pose proof (get_usr_input_from_in_opts (stdin w) (donor_db w) None) as O1.
  pose proof (get_usr_input_from_reads (stdin w) (donor_db w) None) as R1.
  fold (get_usr_input w) in E1, O1, R1.
  set (o := get_usr_input w) in *.
  destruct (value o) as [choice'|e] eqn:Hv.
  2:{ eexists; split; [reflexivity|]. cbn [value]. intros ? [= <-]. auto. }
  specialize (R1 choice' eq_refl eq_refl).
  destruct (in_PROMPT_OPTS_handler choice' (O1 _ eq_refl)) as (n & h & -> & _ & Hh).
  unfold dispatch. cbn [mbind option_bind]. rewrite Hh.
  destruct (run_handler_ok h (final o)) as [S2 E2].
  set (o2 := run_handler h (final o)) in *.
  cbn [after value final log].
  destruct (value o2) as [[]|e] eqn:Hv2.
  - destruct (IH (Some n) (final o2)) as (o3 & -> & E3).
    { apply suffix_length in S2. lia. }
    eexists; split; [reflexivity|]. exact E3.
  - eexists; split; [reflexivity|]. cbn [value]. intros ? [= <-]. auto.
Qed.

(** C8.  What [get_usr_input] returns is one of [PROMPT_OPTS] and has a
    handler in [opt_dict]; and the main loop comes to an end without ever
    calling [None]. *)
Theorem C8_menu_choice_always_has_a_handler (w : world) :
  (forall choice, value (get_usr_input w) = Ret choice ->
     exists n h, choice = Some n /\ n ∈ PROMPT_OPTS /\ opt_dict !! n = Some h)
  /\ exists o, main w = Some o /\ value o <> Exn TypeError.
Proof.
  split.
  - intros choice H. apply in_PROMPT_OPTS_handler.
    eapply get_usr_input_from_in_opts. exact H.
  - destruct (main_loop_ends (S (length (stdin w))) None w) as (o & Ho & E); [lia|].
    exists o. split; [exact Ho|]. intros H. apply E in H. discriminate.
Qed.

(* ===================================================================== *)
(** ** Donor keys *)
(* ===================================================================== *)

(** *** Characters, by going through all of them *)

Lemma is_space_lower_char c : is_space (lower_char c) = is_space c.
Proof. each_char c. Qed.

Lemma is_space_upper_char c : is_space (upper_char c) = is_space c.
Proof. each_char c. Qed.

Lemma is_lower_upper_char c : is_lower (upper_char c) = false.
Proof. each_char c. Qed.

Lemma upper_of_lower_not_Q c :
  lower_char c <> "q"%char -> upper_char (lower_char c) <> "Q"%char.
Proof. each_char c. Qed.

(** *** Words *)


Lemma push_word_words w ws :
  space_free w = true -> Forall is_word ws -> Forall is_word (push_word w ws).
Proof.
  intros Hw Hws. unfold push_word. destruct (is_empty w) eqn:He; [exact Hws|].
  constructor; [split; assumption|exact Hws].
Qed.

Lemma split_go_words s :
  space_free (split_go s).1 = true /\ Forall is_word (split_go s).2.
Proof.
  induction s as [|c s IH]; cbn [split_go]; [split; [reflexivity|constructor]|].
  destruct (split_go s) as [w ws]. cbn [fst snd] in *. destruct IH as [Hw Hws].
  destruct (is_space c) eqn:Hc; cbn [fst snd space_free].
  - split; [reflexivity|]. apply push_word_words; assumption.
  - rewrite Hc, Hw. split; [reflexivity|exact Hws].
Qed.

Lemma split_words s : Forall is_word (split s).
Proof.
  unfold split. pose proof (split_go_words s) as [Hw Hws].
  destruct (split_go s) as [w ws]. apply push_word_words; assumption.
Qed.

Lemma split_go_app_word w s :
  space_free w = true ->
  split_go (w +:+ s) = ((w +:+ (split_go s).1), (split_go s).2).
Proof.
  induction w as [|c w IH]; intros H.
  - change ("" +:+ s) with s. destruct (split_go s); reflexivity.
  - cbn [space_free] in H. apply andb_true_iff in H as [Hc Hw].
    change (String c w +:+ s) with (String c (w +:+ s)).
    cbn [split_go]. rewrite (IH Hw).
    apply negb_true_iff in Hc. rewrite Hc. reflexivity.
Qed.

Lemma append_empty_r (s : string) : s +:+ "" = s.
Proof.
  induction s as [|c s IH]; [reflexivity|].
  change (String c s +:+ "") with (String c (s +:+ "")). rewrite IH. reflexivity.
Qed.

(** Joining words with one space and splitting again gives the words. *)
Lemma split_join ws : Forall is_word ws -> split (join " " ws) = ws.
Proof.
  induction 1 as [|w ws [He Hs] Hws IH]; [reflexivity|].
  unfold join in *. cbn [String.concat]. destruct ws as [|w' ws'].
  - unfold split. rewrite <- (append_empty_r w) at 1.
    rewrite split_go_app_word by exact Hs. cbn [split_go fst snd].
    rewrite append_empty_r. unfold push_word. rewrite He. reflexivity.
  - unfold split at 1. rewrite split_go_app_word by exact Hs.
    change (" " +:+ String.concat " " (w' :: ws'))
      with (String " "%char (String.concat " " (w' :: ws'))).
    cbn [split_go]. fold (split (String.concat " " (w' :: ws'))).
    pose proof IH as IH'. unfold split in IH'.
    destruct (split_go (String.concat " " (w' :: ws'))) as [u us].
    change (is_space " "%char) with true. cbn [fst snd].
    rewrite append_empty_r. rewrite IH'. unfold push_word. rewrite He. reflexivity.
Qed.

Lemma title_go_word b w : is_word w -> is_word (title_go b w).
Proof.
  intros [He Hs]. split.
  - destruct w; [discriminate|reflexivity].
  - clear He. revert b Hs. induction w as [|c w IH]; intros b; [reflexivity|].
    cbn [space_free title_go]. intros H. apply andb_true_iff in H as [Hc Hw].
    rewrite (IH _ Hw), andb_true_r.
    destruct b; [rewrite is_space_lower_char|rewrite is_space_upper_char]; exact Hc.
Qed.

Lemma title_words ws : Forall is_word ws -> Forall is_word (map title ws).
Proof. intros H. apply Forall_map. eapply Forall_impl; [exact H|]. intros w. apply title_go_word. Qed.


Lemma title_capitalized w : is_word w -> capitalized (title w).
Proof.
  intros [He _]. destruct w as [|c w]; [discriminate|].
  cbn. apply is_lower_upper_char.
Qed.

(** The key of a donor is made of the capitalized words of the line, one
    space apart. *)
Lemma donor_key_words line :
  split (donor_key line) = map title (split (lower (strip line)))
  /\ donor_key line = join " " (split (donor_key line))
  /\ Forall capitalized (split (donor_key line)).
Proof.
  assert (H : split (donor_key line) = map title (split (lower (strip line)))).
  { unfold donor_key. apply split_join, title_words, split_words. }
  split; [exact H|]. split.
  - rewrite H. reflexivity.
  - rewrite H. apply Forall_map. eapply Forall_impl; [apply split_words|].
    intros w. apply title_capitalized.
Qed.

(** *** The first character of a key *)

Lemma lstrip_head s c r : lstrip s = String c r -> is_space c = false.
Proof.
  induction s as [|c0 s IH]; cbn [lstrip]; [discriminate|].
  destruct (is_space c0) eqn:Hc; [exact IH|]. intros [= <- _]. exact Hc.
Qed.

Lemma strip_head s c r : strip s = String c r -> is_space c = false.
Proof.
  unfold strip. destruct (lstrip s) as [|c0 r0] eqn:Hl; [discriminate|].
  pose proof (lstrip_head _ _ _ Hl) as Hc. cbn [rstrip]. rewrite Hc.
  cbn [andb]. intros [= <- _]. exact Hc.
Qed.

Lemma startswith_char c r a :
  startswith (String c r) (String a EmptyString) = false -> c <> a.
Proof.
  unfold startswith. cbn [String.prefix].
  destruct (ascii_dec a c) as [->|Hne]; [|congruence].
  destruct r; discriminate.
Qed.

Lemma startswith_char_ne c r a :
  c <> a -> startswith (String c r) (String a EmptyString) = false.
Proof.
  intros Hne. unfold startswith. cbn [String.prefix].
  destruct (ascii_dec a c) as [->|_]; [congruence|reflexivity].
Qed.

Lemma join_head sep c w ws : exists r, join sep (String c w :: ws) = String c r.
Proof.
  unfold join. cbn [String.concat]. destruct ws as [|w' ws'].
  - eexists; reflexivity.
  - eexists. change (String c w +:+ ?x) with (String c (w +:+ x)). reflexivity.
Qed.

Lemma donor_key_head line c r :
  lower (strip line) = String c r ->
  exists r', donor_key line = String (upper_char c) r'.
Proof.
  intros H. unfold donor_key. rewrite H.
  assert (Hc : is_space c = false).
  { destruct (strip line) as [|c0 r0] eqn:Hs; [discriminate|].
    cbn [lower] in H. injection H as <- _.
    rewrite is_space_lower_char. eapply strip_head; eauto. }
  unfold split. cbn [split_go]. destruct (split_go r) as [w ws]. rewrite Hc.
  cbn [push_word is_empty map title title_go]. apply join_head.
Qed.

(** A line that is not a quit never makes a key that begins with Q. *)
Lemma donor_key_not_Q line :
  startswith (lower (strip line)) "q" = false ->
  startswith (donor_key line) "Q" = false.
Proof.
  intros Hq. destruct (lower (strip line)) as [|c r] eqn:Hl.
  - unfold donor_key. rewrite Hl. reflexivity.
  - destruct (donor_key_head line c r Hl) as [r' ->].
    apply startswith_char in Hq. apply startswith_char_ne.
    destruct (strip line) as [|c0 r0]; [discriminate|].
    cbn [lower] in Hl. injection Hl as <- _.
    apply upper_of_lower_not_Q. exact Hq.
Qed.

(** *** Quitting a prompt *)


Lemma prompt_for_float_quit p e line rest db skipped :
  startswith (lower (strip line)) "q" = true ->
  Forall float_asks_again skipped ->
  let o := prompt_for_float p e (World (skipped ++ line :: rest) db) in
  value o = Ret None /\ final o = World rest db.
Proof.
  intros Hq Hs. cbv zeta. unfold prompt_for_float. cbn [stdin donor_db].
  induction Hs as [|l ls [Hlq Hlf] _ IH].
  - cbn [app]. rewrite prompt_for_float_from_cons, Hq. split; reflexivity.
  - change ((l :: ls) ++ line :: rest) with (l :: (ls ++ line :: rest)).
    rewrite prompt_for_float_from_cons, Hlq, Hlf. exact IH.
Qed.


Lemma prompt_for_donor_quit p line rest db skipped : forall donor,
  donor_truthy donor = false ->
  startswith (lower (strip line)) "q" = true ->
  Forall donor_asks_again skipped ->
  let o := prompt_for_donor_from p donor (skipped ++ line :: rest) db in
  final o = World rest db
  /\ value o = Ret (if forallb is_list_command skipped then donor else Some "").
Proof.
  intros donor Hd Hq Hs. cbv zeta. revert donor Hd.
  induction Hs as [|l ls [Hlq Hl] _ IH]; intros donor Hd.
  - cbn [app]. rewrite prompt_for_donor_from_cons, Hq by exact Hd.
    split; reflexivity.
  - change ((l :: ls) ++ line :: rest) with (l :: (ls ++ line :: rest)).
    rewrite prompt_for_donor_from_cons, Hlq by exact Hd.
    cbn [forallb]. unfold is_list_command at 1.
    destruct (String.eqb (lower (strip l)) "list") eqn:Hlist.
    + cbn [after value final andb]. apply IH. exact Hd.
    + destruct Hl as [Hl|Hl]; [discriminate|].
      cbn [after value final andb].
      destruct (donor_key l) as [|c r] eqn:Hk; [|discriminate].
      destruct (IH (Some "") eq_refl) as [Hf Hv].
      split; [exact Hf|]. rewrite Hv. destruct (forallb _ _); reflexivity.
Qed.

(** C10 (amended).  A line whose stripped, lower-cased text begins with q
    ends either prompt at that line.  The float prompt then returns
    [None]; the donor prompt returns [None], or the empty string when a
    line before it left an empty name.  No name that the donor prompt
    returns begins with Q. *)
Theorem C10_q_is_quit (line : string) (rest skipped : list string)
    (db : gmap string (list spec_float)) (p e : string) :
  startswith (lower (strip line)) "q" = true ->
  (Forall float_asks_again skipped ->
   let o := prompt_for_float p e (World (skipped ++ line :: rest) db) in
   value o = Ret None /\ final o = World rest db)
  /\ (Forall donor_asks_again skipped ->
      let o := prompt_for_donor p (World (skipped ++ line :: rest) db) in
      final o = World rest db
      /\ value o = Ret (if forallb is_list_command skipped then None else Some ""))
  /\ (forall w name,
        value (prompt_for_donor p w) = Ret (Some name) ->
        startswith name "Q" = false).
Proof.
  intros Hq. split; [|split].
  - intros Hs. apply prompt_for_float_quit; assumption.
  - intros Hs. apply (prompt_for_donor_quit p line rest db skipped None eq_refl Hq Hs).
  - intros w name H. apply prompt_for_donor_value in H.
    destruct H as [H|(l & _ & [= ->] & Hlq & _)]; [discriminate|].
    apply donor_key_not_Q. exact Hlq.
Qed.

(** *** Thanking twice *)


(* ===================================================================== *)
(** ** The projection *)
(* ===================================================================== *)

Import DonorDict.

Lemma bound_set_zero (z : Q) : (z == 0)%Q -> bound_set (Some z) = false.
Proof.
  intros H. cbn [bound_set]. apply Qeq_bool_iff in H. rewrite H. reflexivity.
Qed.

(** A bound that is not set excludes nothing on its side. *)
Lemma excluded_zero_min z mx t :
  (z == 0)%Q -> excluded (Some z) mx t = excluded None mx t.
Proof. intros H. unfold excluded. rewrite (bound_set_zero z H). reflexivity. Qed.

Lemma excluded_zero_max z mn t :
  (z == 0)%Q -> excluded mn (Some z) t = excluded mn None t.
Proof.
  intros H. unfold excluded. rewrite (bound_set_zero z H).
  cbn [bound_set andb]. reflexivity.
Qed.

Lemma projection_ext factor mn mx mn' mx' ledger :
  (forall t, excluded mn mx t = excluded mn' mx' t) ->
  projection factor mn mx ledger = projection factor mn' mx' ledger.
Proof.
  intros H. unfold projection. f_equal; f_equal.
  - f_equal. apply List.filter_ext. intros t. rewrite H. reflexivity.
  - apply List.filter_ext. exact H.
Qed.

Lemma filter_all {A} (l : list A) : List.filter (fun _ => true) l = l.
Proof. induction l as [|x l IH]; [reflexivity|]. cbn. rewrite IH. reflexivity. Qed.

Lemma filter_none {A} (l : list A) : List.filter (fun _ => false) l = [].
Proof. induction l as [|x l IH]; [reflexivity|exact IH]. Qed.


(** C5.  A bound of zero is no bound: the projection with a zero minimum
    (or a zero maximum) is the projection without that bound, for every
    ledger, factor and other bound; a zero bound excludes no donor that the
    other bound does not exclude, and two zero bounds exclude none. *)
Theorem C5_zero_bound_is_no_bound
    (ledger : gmap string (list Q)) (factor z : Q) (other : option Q) :
  (z == 0)%Q ->
  DonorDict.projection factor (Some z) other ledger
    = DonorDict.projection factor None other ledger
  /\ DonorDict.projection factor other (Some z) ledger
    = DonorDict.projection factor other None ledger
  /\ forall t,
       DonorDict.excluded (Some z) other t = DonorDict.excluded None other t
       /\ DonorDict.excluded other (Some z) t = DonorDict.excluded other None t
       /\ DonorDict.excluded (Some z) (Some z) t = false.
Proof.
  intros Hz. split; [|split].
  - apply projection_ext. intros t. apply excluded_zero_min. exact Hz.
  - apply projection_ext. intros t. apply excluded_zero_max. exact Hz.
  - intros t. split; [apply excluded_zero_min; exact Hz|].
    split; [apply excluded_zero_max; exact Hz|].
    rewrite excluded_zero_min, excluded_zero_max by exact Hz. reflexivity.
Qed.

(** C6.  Without bounds and with the factor one, the projection is the sum
    of the totals of all donors. *)
Theorem C6_identity_projection (ledger : gmap string (list Q)) :
  (DonorDict.projection 1 None None ledger
   == DonorDict.sum (DonorDict.totals ledger))%Q.
Proof.
  unfold DonorDict.projection.
  change (fun t => negb (DonorDict.excluded None None t)) with (fun _ : Q => true).
  change (DonorDict.excluded None None) with (fun _ : Q => false).
  rewrite filter_all, filter_none. cbn [DonorDict.sum fold_right]. ring.
Qed.

(* ===================================================================== *)
(** ** The report *)
(* ===================================================================== *)

(** *** The order on names *)

Lemma str_leb_spec a b : str_leb a b = true <-> a = b \/ String_as_OT.lt a b.
Proof.
  unfold str_leb. destruct (String_as_OT.compare_spec a b) as [H|H|H].
  - tauto.
  - tauto.
  - split; [discriminate|]. intros [->|H'].
    + exfalso. eapply (irreflexivity String_as_OT.lt); eauto.
    + exfalso. eapply (irreflexivity String_as_OT.lt).
      etransitivity; eauto.
Qed.

Lemma str_leb_total a b : str_leb a b = true \/ str_leb b a = true.
Proof.
  rewrite !str_leb_spec.
  destruct (String_as_OT.compare_spec a b) as [H|H|H]; auto.
Qed.

Lemma str_leb_trans a b c :
  str_leb a b = true -> str_leb b c = true -> str_leb a c = true.
Proof.
  rewrite !str_leb_spec. intros [->|H1] [->|H2]; auto.
  right. etransitivity; eauto.
Qed.

Lemma str_leb_antisym a b : str_leb a b = true -> str_leb b a = true -> a = b.
Proof.
  rewrite !str_leb_spec. intros [H1|H1] [H2|H2]; try congruence.
  exfalso. eapply (irreflexivity String_as_OT.lt). etransitivity; eauto.
Qed.

(** *** The order on rows *)

Lemma row_le_spec r1 r2 :
  row_le r1 r2 <->
  (row_total r2 < row_total r1)%Q
  \/ ((row_total r1 == row_total r2)%Q /\ str_leb (row_name r1) (row_name r2) = true).
Proof.
  unfold row_le, row_leb.
  destruct (Qcompare_spec (row_total r2) (row_total r1)) as [H|H|H].
  - split; [intros; right; split; [symmetry|]; assumption|].
    intros [H'|[_ H']]; [lra|exact H'].
  - split; auto.
  - split; [discriminate|]. intros [H'|[H' _]]; lra.
Qed.

#[global] Instance row_le_total : Total row_le.
Proof.
  intros r1 r2. rewrite !row_le_spec.
  destruct (Qcompare_spec (row_total r1) (row_total r2)) as [H|H|H]; auto.
  destruct (str_leb_total (row_name r1) (row_name r2)); [left|right]; right;
    split; auto. symmetry; exact H.
Qed.

#[global] Instance row_le_trans : Transitive row_le.
Proof.
  intros r1 r2 r3. rewrite !row_le_spec.
  intros [H1|[H1 N1]] [H2|[H2 N2]]; try (left; lra).
  right. split; [lra|]. eapply str_leb_trans; eauto.
Qed.

Lemma row_le_before r1 r2 :
  row_le r1 r2 -> row_name r1 <> row_name r2 -> row_before r1 r2.
Proof.
  rewrite row_le_spec. intros [H|[H N]] Hne; [left; exact H|].
  right. split; [exact H|]. apply str_leb_spec in N as [N|N]; [contradiction|exact N].
Qed.

Lemma row_le_same_name r1 r2 :
  row_le r1 r2 -> row_le r2 r1 -> row_name r1 = row_name r2.
Proof.
  rewrite !row_le_spec. intros [H1|[H1 N1]] [H2|[H2 N2]]; try lra.
  apply str_leb_antisym; assumption.
Qed.

(** *** Rows of a ledger *)

Lemma rows_names ledger : row_name <$> rows ledger = (map_to_list ledger).*1.
Proof.
  unfold rows. rewrite <- list_fmap_compose. reflexivity.
Qed.

Lemma rows_NoDup ledger : NoDup (row_name <$> rows ledger).
Proof. rewrite rows_names. apply NoDup_fst_map_to_list. Qed.

Lemma same_name_same_row (rs : list row) r1 r2 :
  NoDup (row_name <$> rs) -> r1 ∈ rs -> r2 ∈ rs ->
  row_name r1 = row_name r2 -> r1 = r2.
Proof.
  induction rs as [|r rs IH]; intros Hnd H1 H2 Hn.
  - apply elem_of_nil in H1. destruct H1.
  - rewrite fmap_cons in Hnd. apply NoDup_cons in Hnd as [Hr Hnd].
    apply elem_of_cons in H1 as [->|H1]; apply elem_of_cons in H2 as [->|H2].
    + reflexivity.
    + exfalso. apply Hr. rewrite Hn. apply list_elem_of_fmap_2. exact H2.
    + exfalso. apply Hr. rewrite <- Hn. apply list_elem_of_fmap_2. exact H1.
    + apply IH; assumption.
Qed.

(** In a list of rows with distinct names, the order by [row_le] is the
    strict order of the spec. *)
Lemma StronglySorted_before (rs : list row) :
  NoDup (row_name <$> rs) -> StronglySorted row_le rs -> StronglySorted row_before rs.
Proof.
  induction rs as [|r rs IH]; intros Hnd Hs; [constructor|].
  rewrite fmap_cons in Hnd. apply NoDup_cons in Hnd as [Hr Hnd].
  apply StronglySorted_inv in Hs as [Hs Hall].
  constructor; [apply IH; assumption|].
  rewrite Forall_forall in Hall |- *. intros r' Hin.
  apply row_le_before; [apply Hall; exact Hin|].
  intros Heq. apply Hr. rewrite Heq. apply list_elem_of_fmap_2. exact Hin.
Qed.


(** C7.  The report holds the row of each donor once; a row that comes
    before another has the larger total or, at equal totals, the smaller
    name; and the rows can be put in no other order that goes by total and
    name. *)
Theorem C7_report_order (ledger : gmap string (list Q)) :
  let report := DonorDict.create_report ledger in
  report ≡ₚ DonorDict.rows ledger
  /\ StronglySorted DonorDict.row_before report
  /\ forall rs, rs ≡ₚ DonorDict.rows ledger ->
                Sorted DonorDict.row_le rs -> rs = report.
Proof.
  cbv zeta. unfold DonorDict.create_report.
  pose proof (merge_sort_Permutation DonorDict.row_le (DonorDict.rows ledger)) as Hperm.
  assert (Hnd : NoDup (DonorDict.row_name <$> merge_sort DonorDict.row_le (DonorDict.rows ledger))).
  { rewrite Hperm. apply rows_NoDup. }
  split; [exact Hperm|]. split.
  - apply StronglySorted_before; [exact Hnd|].
    apply StronglySorted_merge_sort; apply _.
  - intros rs Hrs Hsorted.
    apply (Sorted_unique_strong DonorDict.row_le); [|exact Hsorted| |].
    + intros r1 r2 H1 H2 H12 H21.
      apply (same_name_same_row (DonorDict.rows ledger)).
      * apply rows_NoDup.
      * rewrite <- Hrs. exact H1.
      * rewrite <- Hperm. exact H2.
      * apply row_le_same_name; assumption.
    + apply Sorted_merge_sort. apply _.
    + rewrite Hrs, Hperm. reflexivity.
Qed.

(* ===================================================================== *)
(** ** Concrete runs *)
(* ===================================================================== *)

(** C1 as stated fails: the factor -2 is handed to the engine. *)
Lemma C1_counterexample :
  ~ (forall factor min_don max_don,
       In (EvProjection factor min_don max_don)
          (log (create_projection (World ["-2"; "0"; "0"] ∅))) ->
       float_positive factor = true).
Proof.
  intros H.
  specialize (H minus_two (Some float_zero) (Some float_zero)).
  assert (Hin : In (EvProjection minus_two (Some float_zero) (Some float_zero))
                   (log (create_projection (World ["-2"; "0"; "0"] ∅))))
    by (vm_compute; pick).
  apply H in Hin. vm_compute in Hin. discriminate.
Qed.

(** C1 (amended) on a run: "two" is asked again, -2 is handed on. *)
Lemma C1_witness :
  In (EvProjection minus_two (Some float_zero) None)
     (log (create_projection (World ["two"; "-2"; "0"; "q"] ∅)))
  /\ float_truthy minus_two = true
  /\ exists line, In line ["two"; "-2"; "0"; "q"]
       /\ startswith (lower (strip line)) "q" = false
       /\ py_float (lower (strip line)) = Some minus_two.
Proof.
  assert (Hin : In (EvProjection minus_two (Some float_zero) None)
     (log (create_projection (World ["two"; "-2"; "0"; "q"] ∅))))
    by (vm_compute; pick).
  split; [exact Hin|].
  exact (C1_factor_is_nonzero_number (World ["two"; "-2"; "0"; "q"] ∅)
           minus_two (Some float_zero) None Hin).
Defined.

(** C2 as stated fails: the amount -5 is recorded. *)
Lemma C2_counterexample :
  ~ (forall name amount,
       In (EvAddDonation name amount)
          (log (send_thank_you (World ["jane doe"; "-5"] ∅))) ->
       float_positive amount = true).
Proof.
  intros H. specialize (H "Jane Doe" minus_five).
  assert (Hin : In (EvAddDonation "Jane Doe" minus_five)
                   (log (send_thank_you (World ["jane doe"; "-5"] ∅))))
    by (vm_compute; pick).
  apply H in Hin. vm_compute in Hin. discriminate.
Qed.

(** C2 (amended) on the run that records -5. *)
Lemma C2_witness :
  In (EvAddDonation "Jane Doe" minus_five)
     (log (send_thank_you (World ["jane doe"; "-5"] ∅)))
  /\ float_truthy minus_five = true
  /\ exists line, In line ["jane doe"; "-5"]
       /\ startswith (lower (strip line)) "q" = false
       /\ py_float (lower (strip line)) = Some minus_five.
Proof.
  assert (Hin : In (EvAddDonation "Jane Doe" minus_five)
     (log (send_thank_you (World ["jane doe"; "-5"] ∅))))
    by (vm_compute; pick).
  split; [exact Hin|].
  exact (C2_recorded_amount_is_nonzero_number (World ["jane doe"; "-5"] ∅)
           "Jane Doe" minus_five Hin).
Defined.

(** C3 as stated fails: after "ten dollars" the flow prints the error
    text, asks again, records 10 and returns. *)
Lemma C3_counterexample :
  let o := send_thank_you (World ["jane doe"; "ten dollars"; "10"] ∅) in
  value o = Ret tt
  /\ log o =
     [EvPrompt name_prompt; EvPrompt amount_prompt; EvPrint amount_error_prompt;
      EvPrompt amount_prompt; EvAddDonor "Jane Doe";
      EvAddDonation "Jane Doe" ten; EvThankYou "Jane Doe" ten].
Proof. vm_compute. split; reflexivity. Qed.

(** C3 (amended) on that run. *)
Lemma C3_witness :
  let o := send_thank_you (World ["jane doe"; "ten dollars"; "10"] ∅) in
  let o' := send_thank_you (World ["jane doe"; "10"] ∅) in
  value o <> Exn ValueError
  /\ value o = value o'
  /\ final o = final o'
  /\ log o = EvPrompt name_prompt :: EvPrompt amount_prompt
               :: EvPrint amount_error_prompt :: tail (log o').
Proof.
  apply (C3_bogus_amount_is_asked_again "jane doe" "ten dollars" ["10"] ∅);
    vm_compute; reflexivity.
Defined.

(** C5 on the spec's ledger, with the zero written 0/7. *)
Lemma C5_witness :
  (0 # 7 == 0)%Q
  /\ DonorDict.projection 2 (Some (0 # 7)) (Some 99%Q) spec_ledger
     = DonorDict.projection 2 None (Some 99%Q) spec_ledger.
Proof.
  split; [reflexivity|].
  apply (C5_zero_bound_is_no_bound spec_ledger 2 (0 # 7) (Some 99%Q)). reflexivity.
Defined.

(** C10 as stated fails: after an empty line, quitting the donor prompt
    returns the empty string, not [None]. *)
Lemma C10_counterexample :
  value (prompt_for_donor name_prompt (World [""; "quit"] ∅)) <> Ret None.
Proof. vm_compute. discriminate. Qed.

(** C10 (amended) on two runs: a quit after a line that is not a number,
    and "Quincy" taken as a quit after [list]. *)
Lemma C10_witness :
  value (prompt_for_float amount_prompt amount_error_prompt
           (World ["ten dollars"; " Quit "; "5"] ∅)) = Ret None
  /\ value (prompt_for_donor name_prompt (World ["list"; "Quincy"; "jane"] ∅))
     = Ret None.
Proof.
  split.
  - apply (C10_q_is_quit " Quit " ["5"] ["ten dollars"] ∅
             amount_prompt amount_error_prompt eq_refl).
    repeat constructor.
  - apply (C10_q_is_quit "Quincy" ["jane"] ["list"] ∅
             name_prompt amount_error_prompt eq_refl).
    repeat constructor.
Defined.

(** C8 on a run of the menu. *)
Lemma C8_witness :
  exists o, main (World ["7"; "two"; "2"; "1"; "q"; "5"] ∅) = Some o
            /\ value o <> Exn TypeError.
Proof. apply (C8_menu_choice_always_has_a_handler (World ["7"; "two"; "2"; "1"; "q"; "5"] ∅)). Defined.

Example main_run :
  (fun o => (value o, log o)) <$> main (World ["7"; "two"; "2"; "1"; "q"; "5"] ∅) =
  Some (Ret tt,
        [EvPrompt SELECT_PROMPT;
         EvPrint (nl +:+ "Please select a number between 1 and 5");
         EvPrompt SELECT_PROMPT;
         EvPrint (nl +:+ "Please try again. Valid options are: (1, 2, 3, 4, 5)");
         EvPrompt SELECT_PROMPT; EvFromDb; EvReport;
         EvPrompt SELECT_PROMPT; EvPrompt name_prompt;
         EvPrompt SELECT_PROMPT; EvPrint "Quitting mailroom..."]).
Proof. vm_compute. reflexivity. Qed.

(* ===================================================================== *)
(** ** More on donor keys *)
(* ===================================================================== *)

(** *** Case of characters *)

Lemma lower_char_idem c : lower_char (lower_char c) = lower_char c.
Proof. each_char c. Qed.

Lemma upper_char_idem c : upper_char (upper_char c) = upper_char c.
Proof. each_char c. Qed.

Lemma lower_upper_char c : lower_char (upper_char c) = lower_char c.
Proof. each_char c. Qed.

Lemma upper_lower_char c : upper_char (lower_char c) = upper_char c.
Proof. each_char c. Qed.

Lemma is_cased_lower_char c : is_cased (lower_char c) = is_cased c.
Proof. each_char c. Qed.

Lemma is_cased_upper_char c : is_cased (upper_char c) = is_cased c.
Proof. each_char c. Qed.

(** *** Case of text *)

Lemma lower_idem s : lower (lower s) = lower s.
Proof.
  induction s as [|c s IH]; [reflexivity|].
  cbn [lower]. rewrite lower_char_idem, IH. reflexivity.
Qed.

Lemma lower_title_go b s : lower (title_go b s) = lower s.
Proof.
  revert b. induction s as [|c s IH]; intros b; [reflexivity|].
  cbn [title_go lower]. rewrite IH.
  destruct b; [rewrite lower_char_idem|rewrite lower_upper_char]; reflexivity.
Qed.

Lemma title_go_lower b s : title_go b (lower s) = title_go b s.
Proof.
  revert b. induction s as [|c s IH]; intros b; [reflexivity|].
  cbn [title_go lower]. rewrite is_cased_lower_char, IH.
  destruct b; [rewrite lower_char_idem|rewrite upper_lower_char]; reflexivity.
Qed.

Lemma title_go_idem b s : title_go b (title_go b s) = title_go b s.
Proof.
  revert b. induction s as [|c s IH]; intros b; [reflexivity|].
  cbn [title_go].
  destruct b.
  - rewrite is_cased_lower_char, lower_char_idem, IH. reflexivity.
  - rewrite is_cased_upper_char, upper_char_idem, IH. reflexivity.
Qed.

Lemma is_empty_lower s : is_empty (lower s) = is_empty s.
Proof. destruct s; reflexivity. Qed.

(** *** Blanks at the ends *)

Lemma lstrip_lower s : lstrip (lower s) = lower (lstrip s).
Proof.
  induction s as [|c s IH]; [reflexivity|].
  cbn [lower lstrip]. rewrite is_space_lower_char.
  destruct (is_space c); [exact IH|reflexivity].
Qed.

Lemma rstrip_lower s : rstrip (lower s) = lower (rstrip s).
Proof.
  induction s as [|c s IH]; [reflexivity|].
  cbn [lower rstrip]. rewrite is_space_lower_char, IH, is_empty_lower.
  destruct (is_space c && is_empty (rstrip s)); reflexivity.
Qed.

Lemma strip_lower s : strip (lower s) = lower (strip s).
Proof. unfold strip. rewrite lstrip_lower, rstrip_lower. reflexivity. Qed.




(** *** Splitting *)

Lemma push_word_empty ws : push_word "" ws = ws.
Proof. reflexivity. Qed.

Lemma split_cons_space c s : is_space c = true -> split (String c s) = split s.
Proof.
  intros Hc. unfold split. cbn [split_go]. destruct (split_go s) as [w ws].
  rewrite Hc. apply push_word_empty.
Qed.

Lemma split_lstrip s : split (lstrip s) = split s.
Proof.
  induction s as [|c s IH]; [reflexivity|].
  cbn [lstrip]. destruct (is_space c) eqn:Hc; [|reflexivity].
  rewrite split_cons_space by exact Hc. exact IH.
Qed.

Lemma split_go_rstrip s : split_go (rstrip s) = split_go s.
Proof.
  induction s as [|c s IH]; [reflexivity|].
  cbn [rstrip]. destruct (is_space c && is_empty (rstrip s)) eqn:H.
  - apply andb_true_iff in H as [Hc He].
    destruct (rstrip s); [|discriminate].
    cbn [split_go]. rewrite <- IH, Hc. reflexivity.
  - cbn [split_go]. rewrite IH. reflexivity.
Qed.

Lemma split_strip s : split (strip s) = split s.
Proof.
  unfold strip. unfold split at 1. rewrite split_go_rstrip.
  apply split_lstrip.
Qed.

Lemma push_word_lower w ws :
  push_word (lower w) (map lower ws) = map lower (push_word w ws).
Proof. unfold push_word. rewrite is_empty_lower. destruct (is_empty w); reflexivity. Qed.

Lemma split_go_lower s :
  split_go (lower s) = (lower (split_go s).1, map lower (split_go s).2).
Proof.
  induction s as [|c s IH]; [reflexivity|].
  cbn [lower split_go]. rewrite IH, is_space_lower_char.
  destruct (split_go s) as [w ws]. cbn [fst snd].
  destruct (is_space c); cbn [fst snd lower]; [|reflexivity].
  rewrite push_word_lower. reflexivity.
Qed.

Lemma split_lower s : split (lower s) = map lower (split s).
Proof.
  unfold split. rewrite split_go_lower. destruct (split_go s) as [w ws].
  apply push_word_lower.
Qed.

(** A text of one word is that word between blanks. *)
Lemma split_go_no_word s u : split_go s = (u, []) -> rstrip s = u.
Proof.
  revert u. induction s as [|c s IH]; intros u; cbn [split_go rstrip].
  - intros [= <-]. reflexivity.
  - destruct (split_go s) as [w ws]. destruct (is_space c) eqn:Hc.
    + intros [= <- H]. unfold push_word in H.
      destruct (is_empty w) eqn:He; [|discriminate]. subst ws.
      destruct w; [|discriminate]. rewrite (IH "" eq_refl). reflexivity.
    + intros [= <- ->]. rewrite (IH w eq_refl). reflexivity.
Qed.

Lemma split_single s w : split s = [w] -> strip s = w.
Proof.
  induction s as [|c s IH]; [discriminate|].
  destruct (is_space c) eqn:Hc.
  - rewrite split_cons_space by exact Hc. intros H.
    unfold strip. cbn [lstrip]. rewrite Hc. apply IH. exact H.
  - unfold split, strip. cbn [split_go lstrip]. rewrite Hc.
    destruct (split_go s) as [u us] eqn:Hs. unfold push_word. cbn [is_empty].
    intros [= <- ->]. cbn [rstrip]. rewrite Hc. cbn [andb].
    rewrite (split_go_no_word s u Hs). reflexivity.
Qed.

(** *** Keys *)

(** The words of a key, from the words of the line. *)
Lemma donor_key_by_words line :
  donor_key line = join " " (map title (map lower (split line))).
Proof. unfold donor_key. rewrite <- strip_lower, split_strip, split_lower. reflexivity. Qed.

Lemma lower_title w : lower (title w) = lower w.
Proof. apply lower_title_go. Qed.

Lemma title_lower w : title (lower w) = title w.
Proof. apply title_go_lower. Qed.

Lemma title_idem w : title (title w) = title w.
Proof. apply title_go_idem. Qed.

Lemma map_lower_title ws : map lower (map title ws) = map lower ws.
Proof.
  induction ws as [|w ws IH]; [reflexivity|].
  cbn [map]. rewrite lower_title, IH. reflexivity.
Qed.

Lemma map_lower_idem ws : map lower (map lower ws) = map lower ws.
Proof.
  induction ws as [|w ws IH]; [reflexivity|].
  cbn [map]. rewrite lower_idem, IH. reflexivity.
Qed.

Lemma map_title_lower ws : map title (map lower ws) = map title ws.
Proof.
  induction ws as [|w ws IH]; [reflexivity|].
  cbn [map]. rewrite title_lower, IH. reflexivity.
Qed.

Lemma map_title_idem ws : map title (map title ws) = map title ws.
Proof.
  induction ws as [|w ws IH]; [reflexivity|].
  cbn [map]. rewrite title_idem, IH. reflexivity.
Qed.

Lemma split_donor_key line : split (donor_key line) = map title (split (lower (strip line))).
Proof. apply donor_key_words. Qed.

Lemma donor_key_idem line : donor_key (donor_key line) = donor_key line.
Proof.
  rewrite (donor_key_by_words (donor_key line)), split_donor_key.
  rewrite map_title_lower, map_title_idem. reflexivity.
Qed.

Lemma title_go_app_space b w r :
  title_go b (w +:+ String " "%char r)
  = title_go b w +:+ String " "%char (title_go false r).
Proof.
  revert b. induction w as [|c w IH]; intros b.
  - change ("" +:+ String " "%char r) with (String " "%char r).
    cbn [title_go]. change (title_go b "") with "".
    change ("" +:+ ?x) with x. destruct b; reflexivity.
  - change (String c w +:+ String " "%char r) with (String c (w +:+ String " "%char r)).
    cbn [title_go]. rewrite IH. reflexivity.
Qed.

Lemma join_cons_cons sep w w' ws :
  join sep (w :: w' :: ws) = w +:+ sep +:+ join sep (w' :: ws).
Proof. reflexivity. Qed.

Lemma title_go_join b w ws :
  title_go b (join " " (w :: ws)) = join " " (title_go b w :: map title ws).
Proof.
  revert b w. induction ws as [|w' ws IH]; intros b w; [reflexivity|].
  cbn [map]. rewrite !join_cons_cons.
  change (" " +:+ join " " (w' :: ws)) with (String " "%char (join " " (w' :: ws))).
  rewrite title_go_app_space. rewrite IH. reflexivity.
Qed.

Lemma title_join ws : title (join " " ws) = join " " (map title ws).
Proof. destruct ws as [|w ws]; [reflexivity|]. apply title_go_join. Qed.

(** X5.  A donor key is left as it is by the normalisation of the donor
    prompt and by [str.title], which the [list] command applies to the
    names it prints. *)
Theorem X_key_is_a_fixed_point (line : string) :
  donor_key (donor_key line) = donor_key line
  /\ title (donor_key line) = donor_key line.
Proof.
  split; [apply donor_key_idem|].
  unfold donor_key. rewrite title_join, map_title_idem. reflexivity.
Qed.

(** X4.  Two lines make the same donor key exactly when they hold the same
    words up to case: blanks around and between the words, and the case of
    the letters, are all that the key forgets. *)
Theorem X_same_key_iff_same_words (line1 line2 : string) :
  donor_key line1 = donor_key line2
  <-> map lower (split line1) = map lower (split line2).
Proof.
  split.
  - intros H. apply (f_equal split) in H. rewrite !split_donor_key in H.
    apply (f_equal (map lower)) in H. rewrite !map_lower_title in H.
    rewrite <- !strip_lower, !split_strip, !split_lower, !map_lower_idem in H.
    exact H.
  - intros H. rewrite !donor_key_by_words, H. reflexivity.
Qed.

(** *** Typing a returned name again *)

Lemma lower_char_of_upper_of_lower c : lower_char (upper_char (lower_char c)) = lower_char c.
Proof. each_char c. Qed.

Lemma lower_strip_head line c r :
  lower (strip line) = String c r -> lower_char c = c.
Proof.
  destruct (strip line) as [|c0 r0]; [discriminate|].
  cbn [lower]. intros [= <- _]. apply lower_char_idem.
Qed.

(** A key begins, up to case, as the line it was made from. *)
Lemma donor_key_keeps_head line :
  startswith (lower (strip line)) "q" = false ->
  startswith (lower (strip (donor_key line))) "q" = false.
Proof.
  intros Hq.
  destruct (lower (strip (donor_key line))) as [|c r] eqn:Hk; [reflexivity|].
  destruct (donor_key_head _ _ _ Hk) as [r' Hkk]. rewrite donor_key_idem in Hkk.
  destruct (lower (strip line)) as [|c0 r0] eqn:Hl.
  - unfold donor_key in Hkk. rewrite Hl in Hkk. discriminate.
  - destruct (donor_key_head _ _ _ Hl) as [r0' Hl']. rewrite Hl' in Hkk.
    injection Hkk as Hc _.
    apply lower_strip_head in Hk, Hl.
    assert (c0 = c).
    { rewrite <- Hk, <- Hl. rewrite <- (lower_char_of_upper_of_lower c0).
      rewrite <- (lower_char_of_upper_of_lower c). rewrite Hl, Hk, Hc. reflexivity. }
    subst c0. apply startswith_char_ne. apply startswith_char in Hq. exact Hq.
Qed.

Lemma donor_key_not_list line :
  String.eqb (lower (strip line)) "list" = false ->
  String.eqb (lower (strip (donor_key line))) "list" = false.
Proof.
  intros Hl. apply String.eqb_neq. intros H.
  apply String.eqb_neq in Hl. apply Hl.
  assert (Hs : split (lower (strip (donor_key line))) = ["list"]).
  { rewrite H. reflexivity. }
  rewrite <- strip_lower, split_strip, split_lower, split_donor_key in Hs.
  rewrite map_lower_title in Hs.
  rewrite <- strip_lower, split_strip, split_lower, map_lower_idem in Hs.
  rewrite <- split_lower in Hs. apply split_single in Hs.
  rewrite <- strip_lower. exact Hs.
Qed.

(** X6.  A name that the donor prompt has returned can be typed as it is:
    the prompt takes it at once and returns it unchanged. *)
Theorem X_returned_name_can_be_typed_again
    (prompt name : string) (w : world) (rest : list string)
    (db : gmap string (list spec_float)) :
  value (prompt_for_donor prompt w) = Ret (Some name) ->
  is_empty name = false ->
  prompt_for_donor prompt (World (name :: rest) db)
  = Outcome (Ret (Some name)) (World rest db) [EvPrompt prompt].
Proof.
  intros Hv Hne. apply prompt_for_donor_value in Hv.
  destruct Hv as [Hv|(line & _ & [= ->] & Hq & Hl)]; [discriminate|].
  rewrite <- (donor_key_idem line) at 2.
  apply prompt_for_donor_named.
  - apply donor_key_keeps_head. exact Hq.
  - apply donor_key_not_list. exact Hl.
  - rewrite donor_key_idem. exact Hne.
Qed.

(* ===================================================================== *)
(** ** Donor keys against the spec's words *)
(* ===================================================================== *)

(** *** The spec's letters and blanks are those of the code *)










(** *** The words of a key *)







(** *** One space between the words *)





(** *** Lines that share a key *)






(* ===================================================================== *)
(** ** The prompts and the flows, line by line *)
(* ===================================================================== *)

Lemma after_after {A} evs1 evs2 (o : outcome A) :
  after evs1 (after evs2 o) = after (evs1 ++ evs2) o.
Proof. unfold after. cbn [value final log]. rewrite app_assoc. reflexivity. Qed.

Lemma after_nil {A} (o : outcome A) : after [] o = o.
Proof. destruct o. reflexivity. Qed.

(** *** The menu, line by line *)

Lemma get_usr_input_from_skip usr_in line rest db :
  in_PROMPT_OPTS usr_in = false ->
  no_option line ->
  exists usr_in',
    in_PROMPT_OPTS usr_in' = false
    /\ get_usr_input_from usr_in (line :: rest) db
       = after [EvPrompt SELECT_PROMPT; EvPrint (menu_complaint line)]
               (get_usr_input_from usr_in' rest db).
Proof.
  intros Hu Hl. unfold no_option in Hl. cbn [get_usr_input_from]. rewrite Hu.
  cbn [negb]. unfold menu_complaint. destruct (py_int line) as [n|].
  - exists (Some n). split; [exact Hl|]. rewrite Hl. cbn [negb].
    rewrite after_after. reflexivity.
  - exists usr_in. split; [exact Hu|]. rewrite after_after. reflexivity.
Qed.

Lemma get_usr_input_from_take usr_in line rest db n :
  in_PROMPT_OPTS usr_in = false ->
  py_int line = Some n ->
  in_PROMPT_OPTS (Some n) = true ->
  get_usr_input_from usr_in (line :: rest) db
  = Outcome (Ret (Some n)) (World rest db) [EvPrompt SELECT_PROMPT].
Proof.
  intros Hu Hl Hn. cbn [get_usr_input_from]. rewrite Hu, Hl, Hn. cbn [negb].
  rewrite get_usr_input_from_done by exact Hn. reflexivity.
Qed.

Lemma get_usr_input_from_eof usr_in db :
  in_PROMPT_OPTS usr_in = false ->
  get_usr_input_from usr_in [] db
  = Outcome (Exn EOFError) (World [] db) [EvPrompt SELECT_PROMPT].
Proof. intros Hu. cbn [get_usr_input_from]. rewrite Hu. reflexivity. Qed.

Lemma get_usr_input_from_skips skipped tail db : forall usr_in,
  in_PROMPT_OPTS usr_in = false ->
  Forall no_option skipped ->
  exists usr_in',
    in_PROMPT_OPTS usr_in' = false
    /\ get_usr_input_from usr_in (skipped ++ tail) db
       = after (menu_turns skipped) (get_usr_input_from usr_in' tail db).
Proof.
  induction skipped as [|l ls IH]; intros usr_in Hu Hs.
  - exists usr_in. split; [exact Hu|]. symmetry. apply after_nil.
  - apply Forall_cons in Hs as [Hl Hs].
    destruct (get_usr_input_from_skip usr_in l (ls ++ tail) db Hu Hl) as (u1 & Hu1 & E1).
    destruct (IH u1 Hu1 Hs) as (u2 & Hu2 & E2).
    exists u2. split; [exact Hu2|].
    change ((l :: ls) ++ tail) with (l :: (ls ++ tail)).
    rewrite E1, E2, after_after. reflexivity.
Qed.

(** X1.  The menu passes over every line that is no option, answering
    each with its own text (one for what is no integer, one for an integer
    out of range), and returns the first line that reads as one of
    [PROMPT_OPTS], leaving the lines after it unread.  When no such line
    comes it ends in [EOFError], having asked once more. *)
Theorem X_menu_takes_the_first_option
    (skipped : list string) (db : gmap string (list spec_float)) :
  Forall no_option skipped ->
  (forall line rest n,
     py_int line = Some n -> n ∈ PROMPT_OPTS ->
     get_usr_input (World (skipped ++ line :: rest) db)
     = Outcome (Ret (Some n)) (World rest db)
               (menu_turns skipped ++ [EvPrompt SELECT_PROMPT]))
  /\ get_usr_input (World skipped db)
     = Outcome (Exn EOFError) (World [] db)
               (menu_turns skipped ++ [EvPrompt SELECT_PROMPT]).
Proof.
  intros Hs. split.
  - intros line rest n Hl Hn. unfold get_usr_input. cbn [stdin donor_db].
    destruct (get_usr_input_from_skips skipped (line :: rest) db None eq_refl Hs)
      as (u & Hu & ->).
    rewrite (get_usr_input_from_take u line rest db n Hu Hl).
    + reflexivity.
    + cbn [in_PROMPT_OPTS]. apply bool_decide_eq_true. exact Hn.
  - unfold get_usr_input. cbn [stdin donor_db].
    rewrite <- (app_nil_r skipped) at 1.
    destruct (get_usr_input_from_skips skipped [] db None eq_refl Hs) as (u & Hu & ->).
    rewrite get_usr_input_from_eof by exact Hu. reflexivity.
Qed.

(** *** The float prompt, line by line *)

Lemma prompt_for_float_from_skips p e skipped tail db :
  Forall float_asks_again skipped ->
  prompt_for_float_from p e None (skipped ++ tail) db
  = after (float_turns p e skipped) (prompt_for_float_from p e None tail db).
Proof.
  induction 1 as [|l ls [Hq Hf] _ IH].
  - symmetry. apply after_nil.
  - change ((l :: ls) ++ tail) with (l :: (ls ++ tail)).
    rewrite prompt_for_float_from_cons, Hq, Hf, IH, !after_after. reflexivity.
Qed.

Lemma prompt_for_float_after_skips p e skipped line rest db x :
  Forall float_asks_again skipped ->
  startswith (lower (strip line)) "q" = false ->
  py_float (lower (strip line)) = Some x ->
  prompt_for_float p e (World (skipped ++ line :: rest) db)
  = Outcome (Ret (Some x)) (World rest db) (float_turns p e skipped ++ [EvPrompt p]).
Proof.
  intros Hs Hq Hf. unfold prompt_for_float. cbn [stdin donor_db].
  rewrite prompt_for_float_from_skips by exact Hs.
  rewrite prompt_for_float_from_cons, Hq, Hf. reflexivity.
Qed.

(** X2.  The float prompt answers every line that is neither a number nor
    a quit with the error text and returns the first number typed, zero
    included, leaving the lines after it unread.  When the input ends
    first, it ends in [EOFError], having asked once more. *)
Theorem X_float_prompt_takes_the_first_number
    (prompt error_prompt : string) (skipped : list string)
    (db : gmap string (list spec_float)) :
  Forall float_asks_again skipped ->
  (forall line rest x,
     startswith (lower (strip line)) "q" = false ->
     py_float (lower (strip line)) = Some x ->
     prompt_for_float prompt error_prompt (World (skipped ++ line :: rest) db)
     = Outcome (Ret (Some x)) (World rest db)
               (float_turns prompt error_prompt skipped ++ [EvPrompt prompt]))
  /\ prompt_for_float prompt error_prompt (World skipped db)
     = Outcome (Exn EOFError) (World [] db)
               (float_turns prompt error_prompt skipped ++ [EvPrompt prompt]).
Proof.
  intros Hs. split.
  - intros line rest x Hq Hf. apply prompt_for_float_after_skips; assumption.
  - unfold prompt_for_float. cbn [stdin donor_db].
    rewrite <- (app_nil_r skipped) at 1.
    rewrite prompt_for_float_from_skips by exact Hs. reflexivity.
Qed.

(** *** The donor prompt, line by line *)

Lemma prompt_for_donor_from_skips p skipped tail db : forall donor,
  donor_truthy donor = false ->
  Forall donor_asks_again skipped ->
  exists donor',
    donor_truthy donor' = false
    /\ prompt_for_donor_from p donor (skipped ++ tail) db
       = after (donor_turns p db skipped) (prompt_for_donor_from p donor' tail db).
Proof.
  induction skipped as [|l ls IH]; intros donor Hd Hs.
  - exists donor. split; [exact Hd|]. symmetry. apply after_nil.
  - apply Forall_cons in Hs as [[Hq Hl] Hs].
    change ((l :: ls) ++ tail) with (l :: (ls ++ tail)).
    rewrite prompt_for_donor_from_cons, Hq by exact Hd.
    cbn [donor_turns flat_map]. unfold is_list_command at 1.
    destruct (String.eqb (lower (strip l)) "list") eqn:Hlist.
    + destruct (IH donor Hd Hs) as (d' & Hd' & ->).
      exists d'. split; [exact Hd'|]. rewrite !after_after. reflexivity.
    + destruct Hl as [Hl|Hl]; [discriminate|].
      assert (Hk : donor_truthy (Some (donor_key l)) = false).
      { cbn [donor_truthy]. rewrite Hl. reflexivity. }
      destruct (IH _ Hk Hs) as (d' & Hd' & ->).
      exists d'. split; [exact Hd'|]. rewrite !after_after. reflexivity.
Qed.

Lemma prompt_for_donor_after_skips p skipped line rest db :
  Forall donor_asks_again skipped ->
  startswith (lower (strip line)) "q" = false ->
  String.eqb (lower (strip line)) "list" = false ->
  is_empty (donor_key line) = false ->
  prompt_for_donor p (World (skipped ++ line :: rest) db)
  = Outcome (Ret (Some (donor_key line))) (World rest db)
            (donor_turns p db skipped ++ [EvPrompt p]).
Proof.
  intros Hs Hq Hl Hk. unfold prompt_for_donor. cbn [stdin donor_db].
  destruct (prompt_for_donor_from_skips p skipped (line :: rest) db None eq_refl Hs)
    as (d & Hd & ->).
  rewrite prompt_for_donor_from_cons, Hq, Hl by exact Hd.
  rewrite prompt_for_donor_from_truthy; [reflexivity|].
  cbn [donor_truthy]. rewrite Hk. reflexivity.
Qed.

(** X3.  The donor prompt passes over blank lines without a word and
    answers [list] with the names of the store, and returns the key of the
    first line that names a donor, leaving the lines after it unread.
    When the input ends first, it ends in [EOFError], having asked once
    more. *)
Theorem X_donor_prompt_takes_the_first_name
    (prompt : string) (skipped : list string)
    (db : gmap string (list spec_float)) :
  Forall donor_asks_again skipped ->
  (forall line rest,
     startswith (lower (strip line)) "q" = false ->
     String.eqb (lower (strip line)) "list" = false ->
     is_empty (donor_key line) = false ->
     prompt_for_donor prompt (World (skipped ++ line :: rest) db)
     = Outcome (Ret (Some (donor_key line))) (World rest db)
               (donor_turns prompt db skipped ++ [EvPrompt prompt]))
  /\ prompt_for_donor prompt (World skipped db)
     = Outcome (Exn EOFError) (World [] db)
               (donor_turns prompt db skipped ++ [EvPrompt prompt]).
Proof.
  intros Hs. split.
  - intros line rest Hq Hl Hk. apply prompt_for_donor_after_skips; assumption.
  - unfold prompt_for_donor. cbn [stdin donor_db].
    rewrite <- (app_nil_r skipped) at 1.
    destruct (prompt_for_donor_from_skips prompt skipped [] db None eq_refl Hs)
      as (d & Hd & ->).
    cbn [prompt_for_donor_from]. rewrite Hd. reflexivity.
Qed.

(** *** The projection flow, line by line *)

Lemma prompt_for_float_reply p e skipped line rest db r :
  Forall float_asks_again skipped ->
  float_reply line = Some r ->
  prompt_for_float p e (World (skipped ++ line :: rest) db)
  = Outcome (Ret r) (World rest db) (float_asked p e skipped).
Proof.
  intros Hs Hr. unfold prompt_for_float, float_asked. cbn [stdin donor_db].
  rewrite prompt_for_float_from_skips by exact Hs.
  rewrite prompt_for_float_from_cons. unfold float_reply in Hr.
  destruct (startswith _ _).
  - injection Hr as <-. reflexivity.
  - destruct (py_float _); [|discriminate]. injection Hr as <-. reflexivity.
Qed.

Lemma prompt_for_float_starved p e skipped db :
  Forall float_asks_again skipped ->
  prompt_for_float p e (World skipped db)
  = Outcome (Exn EOFError) (World [] db) (float_asked p e skipped).
Proof.
  intros Hs. unfold prompt_for_float, float_asked. cbn [stdin donor_db].
  rewrite <- (app_nil_r skipped) at 1.
  rewrite prompt_for_float_from_skips by exact Hs. reflexivity.
Qed.

(** X8.  The projection flow, whatever is typed.  At each of its three
    prompts, lines that are no number are asked again, and the input may
    end there, which ends the flow in [EOFError].  A quit or a zero at the
    factor prompt ends the flow with nothing but that prompt shown.  After
    any other factor both bound prompts are run; a quit there does not end
    the flow but stands for no bound, and the engine is called with the
    factor and the bounds as typed. *)
Theorem X_projection_flow_line_by_line
    (before_factor before_min before_max : list string)
    (db : gmap string (list spec_float)) :
  Forall float_asks_again before_factor ->
  Forall float_asks_again before_min ->
  Forall float_asks_again before_max ->
  let asked_factor := float_asked factor_prompt float_error_prompt before_factor in
  let asked_min := float_asked min_prompt float_error_prompt before_min in
  let asked_max := float_asked max_prompt float_error_prompt before_max in
  create_projection (World before_factor db)
  = Outcome (Exn EOFError) (World [] db) asked_factor
  /\ forall factor_line reply,
       float_reply factor_line = Some reply ->
       let stops :=
         forall rest,
           create_projection (World (before_factor ++ factor_line :: rest) db)
           = Outcome (Ret tt) (World rest db) asked_factor in
       match reply with
       | None => stops
       | Some factor =>
           if float_truthy factor then
             create_projection
               (World (before_factor ++ factor_line :: before_min) db)
             = Outcome (Exn EOFError) (World [] db) (asked_factor ++ asked_min)
             /\ forall min_line min_don,
                  float_reply min_line = Some min_don ->
                  create_projection
                    (World (before_factor ++ factor_line ::
                            before_min ++ min_line :: before_max) db)
                  = Outcome (Exn EOFError) (World [] db)
                            (asked_factor ++ asked_min ++ asked_max)
                  /\ forall max_line max_don rest,
                       float_reply max_line = Some max_don ->
                       create_projection
                         (World (before_factor ++ factor_line ::
                                 before_min ++ min_line ::
                                 before_max ++ max_line :: rest) db)
                       = Outcome (Ret tt) (World rest db)
                           (asked_factor ++ asked_min ++ asked_max
                            ++ [EvFromDb; EvProjection factor min_don max_don])
           else stops
       end.
Proof.
  intros Hf Hmin Hmax. cbv zeta. split.
  - rewrite create_projection_unfold. cbv zeta.
    rewrite prompt_for_float_starved by exact Hf. reflexivity.
  - intros factor_line reply Hr.
    assert (Hstop : forall rest,
      create_projection (World (before_factor ++ factor_line :: rest) db)
      = match reply with
        | Some f =>
            if float_truthy f then
              let o2 := prompt_for_float min_prompt float_error_prompt (World rest db) in
              match value o2 with
              | Exn e => Outcome (Exn e) (final o2)
                           (float_asked factor_prompt float_error_prompt before_factor
                            ++ log o2)
              | Ret min_don =>
                  let o3 := prompt_for_float max_prompt float_error_prompt (final o2) in
                  match value o3 with
                  | Exn e => Outcome (Exn e) (final o3)
                               (float_asked factor_prompt float_error_prompt before_factor
                                ++ log o2 ++ log o3)
                  | Ret max_don =>
                      Outcome (Ret tt) (final o3)
                        (float_asked factor_prompt float_error_prompt before_factor
                         ++ log o2 ++ log o3 ++ [EvFromDb; EvProjection f min_don max_don])
                  end
              end
            else Outcome (Ret tt) (World rest db)
                   (float_asked factor_prompt float_error_prompt before_factor ++ [])
        | None => Outcome (Ret tt) (World rest db)
                    (float_asked factor_prompt float_error_prompt before_factor ++ [])
        end).
    { intros rest. rewrite create_projection_unfold. cbv zeta.
      rewrite (prompt_for_float_reply _ _ _ _ _ _ reply) by assumption.
      cbn [value final log]. destruct reply as [f|]; reflexivity. }
    destruct reply as [factor|].
    2:{ intros rest. rewrite Hstop, app_nil_r. reflexivity. }
    destruct (float_truthy factor).
    2:{ intros rest. rewrite Hstop, app_nil_r. reflexivity. }
    split.
    { rewrite Hstop. cbv zeta.
      rewrite prompt_for_float_starved by exact Hmin. reflexivity. }
    intros min_line min_don Hmn. split.
    { rewrite Hstop. cbv zeta.
      rewrite (prompt_for_float_reply _ _ _ _ _ _ min_don) by assumption.
      cbn [value final log].
      rewrite prompt_for_float_starved by exact Hmax. reflexivity. }
    intros max_line max_don rest Hmx.
    rewrite Hstop. cbv zeta.
    rewrite (prompt_for_float_reply _ _ _ _ _ _ min_don) by assumption.
    cbn [value final log].
    rewrite (prompt_for_float_reply _ _ _ _ _ _ max_don) by assumption.
    reflexivity.
Qed.

(** X7.  The thank-you flow on its way to a recorded donation: lines that
    name nobody, the line that names the donor, lines that are no amount,
    the amount.  It reads exactly these lines, asks and answers in this
    order, calls [add_donor] and [add_donation] once each and then prints
    the thanks; the store ends with the amount appended to the history of
    the donor. *)
Theorem X_thank_you_line_by_line
    (no_names no_amounts : list string) (name_line amount_line : string)
    (rest : list string) (db : gmap string (list spec_float))
    (amount : spec_float) :
  let name := donor_key name_line in
  Forall donor_asks_again no_names ->
  startswith (lower (strip name_line)) "q" = false ->
  String.eqb (lower (strip name_line)) "list" = false ->
  is_empty name = false ->
  Forall float_asks_again no_amounts ->
  startswith (lower (strip amount_line)) "q" = false ->
  py_float (lower (strip amount_line)) = Some amount ->
  float_truthy amount = true ->
  send_thank_you
    (World (no_names ++ name_line :: no_amounts ++ amount_line :: rest) db)
  = Outcome (Ret tt)
      (World rest (<[name := default [] (db !! name) ++ [amount]]> db))
      (donor_turns name_prompt db no_names ++ [EvPrompt name_prompt]
       ++ float_turns amount_prompt amount_error_prompt no_amounts
       ++ [EvPrompt amount_prompt; EvAddDonor name;
           EvAddDonation name amount; EvThankYou name amount]).
Proof.
  cbv zeta. intros Hs1 Hq Hl Hk Hs2 Haq Hf Ht.
  rewrite send_thank_you_unfold. cbv zeta.
  rewrite prompt_for_donor_after_skips by assumption.
  cbn [value final log]. rewrite Hk.
  rewrite (prompt_for_float_after_skips _ _ _ _ _ _ amount) by assumption.
  cbn [value final log stdin donor_db].
  rewrite Ht. rewrite <- !app_assoc. reflexivity.
Qed.

(* ===================================================================== *)
(** ** The whole run *)
(* ===================================================================== *)

(** *** Where the input ends *)

Lemma get_usr_input_from_eof_stdin lines db : forall usr_in e,
  value (get_usr_input_from usr_in lines db) = Exn e ->
  stdin (final (get_usr_input_from usr_in lines db)) = [].
Proof.
  induction lines as [|line rest IH]; intros usr_in e;
    cbn [get_usr_input_from]; destruct (negb (in_PROMPT_OPTS usr_in));
    try discriminate; try reflexivity.
  cbn [after value final]. destruct (py_int line) as [n|].
  - destruct (negb (in_PROMPT_OPTS (Some n))); cbn [after value final]; apply IH.
  - cbn [after value final]. apply IH.
Qed.

Lemma prompt_for_float_eof_stdin p e lines db ex :
  value (prompt_for_float_from p e None lines db) = Exn ex ->
  stdin (final (prompt_for_float_from p e None lines db)) = [].
Proof.
  induction lines as [|line rest IH]; [reflexivity|].
  rewrite prompt_for_float_from_cons. cbn [after value final].
  destruct (startswith _ _); [discriminate|].
  destruct (py_float _); [discriminate|]. cbn [after value final]. exact IH.
Qed.

Lemma prompt_for_donor_eof_stdin p lines db : forall donor ex,
  value (prompt_for_donor_from p donor lines db) = Exn ex ->
  stdin (final (prompt_for_donor_from p donor lines db)) = [].
Proof.
  induction lines as [|line rest IH]; intros donor ex.
  - cbn [prompt_for_donor_from]. destruct (negb _); [reflexivity|discriminate].
  - destruct (donor_truthy donor) eqn:Ht.
    + rewrite prompt_for_donor_from_truthy by exact Ht. discriminate.
    + rewrite prompt_for_donor_from_cons by exact Ht. cbn [after value final].
      destruct (startswith _ _); [discriminate|].
      destruct (String.eqb _ _); cbn [after value final]; apply IH.
Qed.

Lemma send_thank_you_eof_stdin w e :
  value (send_thank_you w) = Exn e -> stdin (final (send_thank_you w)) = [].
Proof.
  rewrite send_thank_you_unfold. cbv zeta.
  pose proof (prompt_for_donor_eof_stdin name_prompt (stdin w) (donor_db w) None) as E1.
  fold (prompt_for_donor name_prompt w) in E1.
  set (o1 := prompt_for_donor name_prompt w) in *.
  pose proof (prompt_for_float_eof_stdin amount_prompt amount_error_prompt
                (stdin (final o1)) (donor_db (final o1))) as E2.
  fold (prompt_for_float amount_prompt amount_error_prompt (final o1)) in E2.
  set (o2 := prompt_for_float amount_prompt amount_error_prompt (final o1)) in *.
  destruct (value o1) as [[name|]|e1]; try discriminate.
  - destruct (is_empty name); [discriminate|].
    destruct (value o2) as [[amount|]|e2]; try discriminate.
    + destruct (float_truthy amount); discriminate.
    + intros _. cbn [final]. eapply E2. reflexivity.
  - intros _. cbn [final]. eapply E1. reflexivity.
Qed.

Lemma create_projection_eof_stdin w e :
  value (create_projection w) = Exn e -> stdin (final (create_projection w)) = [].
Proof.
  rewrite create_projection_unfold. cbv zeta.
  pose proof (prompt_for_float_eof_stdin factor_prompt float_error_prompt
                (stdin w) (donor_db w)) as E1.
  fold (prompt_for_float factor_prompt float_error_prompt w) in E1.
  set (o1 := prompt_for_float factor_prompt float_error_prompt w) in *.
  pose proof (prompt_for_float_eof_stdin min_prompt float_error_prompt
                (stdin (final o1)) (donor_db (final o1))) as E2.
  fold (prompt_for_float min_prompt float_error_prompt (final o1)) in E2.
  set (o2 := prompt_for_float min_prompt float_error_prompt (final o1)) in *.
  pose proof (prompt_for_float_eof_stdin max_prompt float_error_prompt
                (stdin (final o2)) (donor_db (final o2))) as E3.
  fold (prompt_for_float max_prompt float_error_prompt (final o2)) in E3.
  set (o3 := prompt_for_float max_prompt float_error_prompt (final o2)) in *.
  destruct (value o1) as [[f|]|e1]; try discriminate.
  - destruct (float_truthy f); [|discriminate].
    destruct (value o2) as [mn|e2].
    + destruct (value o3) as [mx|e3]; [discriminate|].
      intros _. cbn [final]. eapply E3. reflexivity.
    + intros _. cbn [final]. eapply E2. reflexivity.
  - intros _. cbn [final]. eapply E1. reflexivity.
Qed.

Lemma run_handler_eof_stdin h w e :
  value (run_handler h w) = Exn e -> stdin (final (run_handler h w)) = [].
Proof.
  destruct h; cbn [run_handler].
  - apply send_thank_you_eof_stdin.
  - discriminate.
  - discriminate.
  - apply create_projection_eof_stdin.
  - discriminate.
Qed.

(** *** The calls of one handler *)

Lemma well_paired_app_bounded n : forall calls1 calls2,
  (length calls1 <= n)%nat ->
  well_paired calls1 -> well_paired calls2 -> well_paired (calls1 ++ calls2).
Proof.
  induction n as [|n IH]; intros calls1 calls2 Hlen H1 H2.
  - destruct calls1; [exact H2|cbn in Hlen; lia].
  - destruct calls1 as [|c1 [|c2 rest]]; [exact H2|destruct c1; contradiction|].
    destruct c1; try contradiction. destruct c2; try contradiction.
    cbn [well_paired] in H1. destruct H1 as (Hn & He & Ht & Hr).
    cbn [app well_paired]. repeat (split; [assumption|]).
    apply IH; [cbn in Hlen; lia|assumption..].
Qed.

Lemma well_paired_app calls1 calls2 :
  well_paired calls1 -> well_paired calls2 -> well_paired (calls1 ++ calls2).
Proof. apply (well_paired_app_bounded (length calls1)). lia. Qed.

Lemma send_thank_you_paired w : well_paired (db_calls (log (send_thank_you w))).
Proof.
  rewrite send_thank_you_unfold. cbv zeta.
  destruct (prompt_for_donor_run name_prompt w) as [_ C1 _ _].
  set (o1 := prompt_for_donor name_prompt w) in *.
  destruct (prompt_for_float_run amount_prompt amount_error_prompt (final o1))
    as [_ C2 _ _].
  set (o2 := prompt_for_float amount_prompt amount_error_prompt (final o1)) in *.
  destruct (value o1) as [[name|]|e1]; cbn [log];
    rewrite ?db_calls_app, ?C1; try exact I.
  destruct (is_empty name) eqn:Hn; cbn [log];
    rewrite ?db_calls_app, ?C1; try exact I.
  destruct (value o2) as [[amount|]|e2]; cbn [log];
    rewrite ?db_calls_app, ?C1, ?C2; try exact I.
  destruct (float_truthy amount) eqn:Ht; cbn [log];
    rewrite ?db_calls_app, ?C1, ?C2; try exact I.
  cbn. auto.
Qed.

Lemma create_projection_no_calls w : db_calls (log (create_projection w)) = [].
Proof.
  rewrite create_projection_unfold. cbv zeta.
  destruct (prompt_for_float_run factor_prompt float_error_prompt w) as [_ C1 _ _].
  set (o1 := prompt_for_float factor_prompt float_error_prompt w) in *.
  destruct (prompt_for_float_run min_prompt float_error_prompt (final o1)) as [_ C2 _ _].
  set (o2 := prompt_for_float min_prompt float_error_prompt (final o1)) in *.
  destruct (prompt_for_float_run max_prompt float_error_prompt (final o2)) as [_ C3 _ _].
  set (o3 := prompt_for_float max_prompt float_error_prompt (final o2)) in *.
  destruct (value o1) as [[f|]|e1]; cbn [log]; rewrite ?db_calls_app, ?C1; try reflexivity.
  destruct (float_truthy f); cbn [log]; rewrite ?db_calls_app, ?C1; try reflexivity.
  destruct (value o2) as [mn|e2]; cbn [log]; rewrite ?db_calls_app, ?C1, ?C2; try reflexivity.
  destruct (value o3) as [mx|e3]; cbn [log]; rewrite ?db_calls_app, ?C1, ?C2, ?C3; reflexivity.
Qed.

Lemma run_handler_paired h w : well_paired (db_calls (log (run_handler h w))).
Proof.
  destruct h; cbn [run_handler].
  - apply send_thank_you_paired.
  - exact I.
  - exact I.
  - rewrite create_projection_no_calls. exact I.
  - exact I.
Qed.

(** *** The whole run *)

Lemma main_loop_done fuel w :
  main_loop fuel (Some 5) w = Some (Outcome (Ret tt) w []).
Proof. destruct fuel; reflexivity. Qed.

Lemma not_last_opt_false n : not_last_opt (Some n) = false -> n = 5.
Proof.
  unfold not_last_opt. intros H. apply negb_false_iff, bool_decide_eq_true in H.
  cbn in H. congruence.
Qed.

Lemma main_loop_turn fuel choice w :
  not_last_opt choice = true ->
  main_loop (S fuel) choice w =
  let o1 := get_usr_input w in
  match value o1 with
  | Exn e => Some (Outcome (Exn e) (final o1) (log o1))
  | Ret choice' =>
      let o2 := dispatch choice' (final o1) in
      match value o2 with
      | Exn e => Some (Outcome (Exn e) (final o2) (log o1 ++ log o2))
      | Ret _ => after (log o1 ++ log o2) <$> main_loop fuel choice' (final o2)
      end
  end.
Proof. intros H. cbn [main_loop]. rewrite H. reflexivity. Qed.

Lemma main_loop_outcome : forall fuel choice w o,
  not_last_opt choice = true ->
  main_loop fuel choice w = Some o ->
  ends_as_main_may o.
Proof.
  induction fuel as [|fuel IH]; intros choice w o Hnl.
  { cbn [main_loop]. rewrite Hnl. discriminate. }
  rewrite main_loop_turn by exact Hnl. cbv zeta.
  pose proof (get_usr_input_quiet (stdin w) (donor_db w) None) as [_ _ E1 _].
  pose proof (get_usr_input_from_in_opts (stdin w) (donor_db w) None) as O1.
  pose proof (get_usr_input_from_eof_stdin (stdin w) (donor_db w) None) as S1.
  fold (get_usr_input w) in E1, O1, S1.
  set (o1 := get_usr_input w) in *.
  destruct (value o1) as [choice'|e] eqn:Hv.
  2:{ intros [= Ho]; subst o. unfold ends_as_main_may. cbn [value final]. eauto. }
  destruct (in_PROMPT_OPTS_handler choice' (O1 _ eq_refl)) as (n & h & -> & _ & Hh).
  unfold dispatch. cbn [mbind option_bind]. rewrite Hh.
  destruct (run_handler_ok h (final o1)) as [_ E2].
  pose proof (run_handler_eof_stdin h (final o1)) as S2.
  set (o2 := run_handler h (final o1)) in *.
  destruct (value o2) as [[]|e] eqn:Hv2.
  2:{ intros [= Ho]; subst o. unfold ends_as_main_may. cbn [value final]. eauto. }
  destruct (not_last_opt (Some n)) eqn:Hn.
  - destruct (main_loop fuel (Some n) (final o2)) as [o3|] eqn:H3; [|discriminate].
    intros [= Ho]; subst o. apply IH in H3; [|exact Hn].
    unfold ends_as_main_may in *. cbn [after value log].
    destruct (value o3) as [[]|e3]; [|exact H3].
    destruct H3 as [evs ->]. exists ((log o1 ++ log o2) ++ evs).
    rewrite app_assoc. reflexivity.
  - apply not_last_opt_false in Hn. subst n. rewrite main_loop_done.
    intros [= Ho]; subst o. unfold ends_as_main_may. cbn [after value log].
    assert (h = h_quit_mailroom) by (vm_compute in Hh; congruence). subst h.
    exists (log o1). unfold o2. cbn. rewrite app_nil_r. reflexivity.
Qed.

Lemma main_loop_paired : forall fuel choice w o,
  main_loop fuel choice w = Some o ->
  well_paired (db_calls (log o)).
Proof.
  induction fuel as [|fuel IH]; intros choice w o;
    destruct (not_last_opt choice) eqn:Hnl.
  - cbn [main_loop]. rewrite Hnl. discriminate.
  - cbn [main_loop]. rewrite Hnl. intros [= Ho]; subst o. exact I.
  - rewrite main_loop_turn by exact Hnl. cbv zeta.
    pose proof (get_usr_input_quiet (stdin w) (donor_db w) None) as [_ C1 _ _].
    pose proof (get_usr_input_from_in_opts (stdin w) (donor_db w) None) as O1.
    fold (get_usr_input w) in C1, O1.
    set (o1 := get_usr_input w) in *.
    destruct (value o1) as [choice'|e] eqn:Hv.
    2:{ intros [= Ho]; subst o. cbn [log]. rewrite C1. exact I. }
    destruct (in_PROMPT_OPTS_handler choice' (O1 _ eq_refl)) as (n & h & -> & _ & Hh).
    unfold dispatch. cbn [mbind option_bind]. rewrite Hh.
    pose proof (run_handler_paired h (final o1)) as P2.
    set (o2 := run_handler h (final o1)) in *.
    destruct (value o2) as [[]|e] eqn:Hv2.
    + destruct (main_loop fuel (Some n) (final o2)) as [o3|] eqn:H3; [|discriminate].
      intros [= Ho]; subst o. apply IH in H3. cbn [after log].
      rewrite !db_calls_app, C1. cbn [app].
      apply well_paired_app; assumption.
    + intros [= Ho]; subst o. cbn [log]. rewrite db_calls_app, C1. exact P2.
  - cbn [main_loop]. rewrite Hnl. intros [= Ho]; subst o. exact I.
Qed.

(** X9.  The main loop ends in one of two ways: normally, and then the
    last thing it did was to print the quit text; or in [EOFError], and
    then the input is used up. *)
Theorem X_main_ends_on_quit_or_end_of_input (w : world) :
  exists o, main w = Some o /\ ends_as_main_may o.
Proof.
  destruct (main_loop_ends (S (length (stdin w))) None w) as (o & Ho & _); [lia|].
  exists o. split; [exact Ho|]. eapply main_loop_outcome; [|exact Ho]. reflexivity.
Qed.

(** X10.  Over a whole run of the main loop the calls to the store come
    two by two: [add_donor] for a name that is not empty, then
    [add_donation] for the same name with an amount that is not zero. *)
Theorem X_main_store_calls_come_in_pairs (w : world) :
  exists o, main w = Some o /\ well_paired (db_calls (log o)).
Proof.
  destruct (main_loop_ends (S (length (stdin w))) None w) as (o & Ho & _); [lia|].
  exists o. split; [exact Ho|]. eapply main_loop_paired. exact Ho.
Qed.

(* ===================================================================== *)
(** ** More concrete runs *)
(* ===================================================================== *)

(** X1 on a run of the menu. *)
Lemma X_menu_witness :
  get_usr_input
    (World ["7"; "two"; String (ascii_of_nat 28) "4"; " 2 "; "5"] ∅)
  = Outcome (Ret (Some 2)) (World ["5"] ∅)
            (menu_turns ["7"; "two"; String (ascii_of_nat 28) "4"]
             ++ [EvPrompt SELECT_PROMPT]).
Proof.
  assert (Hs : Forall no_option ["7"; "two"; String (ascii_of_nat 28) "4"]).
  { repeat (constructor; [vm_compute; reflexivity|]). constructor. }
  assert (Hn : (2:Z) ∈ PROMPT_OPTS) by (vm_compute; repeat constructor).
  exact (proj1 (X_menu_takes_the_first_option _ ∅ Hs) " 2 " ["5"] 2 eq_refl Hn).
Defined.

(** X2 on a run that ends on a zero. *)
Lemma X_float_prompt_witness :
  prompt_for_float amount_prompt amount_error_prompt
    (World ["ten dollars"; ""; "0"; "5"] ∅)
  = Outcome (Ret (Some float_zero)) (World ["5"] ∅)
      (float_turns amount_prompt amount_error_prompt ["ten dollars"; ""]
       ++ [EvPrompt amount_prompt]).
Proof.
  assert (Hs : Forall float_asks_again ["ten dollars"; ""]).
  { repeat (constructor; [split; vm_compute; reflexivity|]). constructor. }
  exact (proj1 (X_float_prompt_takes_the_first_number _ _ _ ∅ Hs)
           "0" ["5"] float_zero eq_refl eq_refl).
Defined.

(** X3 on a run with a blank line and a [list]. *)
Lemma X_donor_prompt_witness :
  prompt_for_donor name_prompt (World ["  "; "LIST"; "jane   doe"; "5"] ∅)
  = Outcome (Ret (Some "Jane Doe")) (World ["5"] ∅)
      (donor_turns name_prompt ∅ ["  "; "LIST"] ++ [EvPrompt name_prompt]).
Proof.
  assert (Hs : Forall donor_asks_again ["  "; "LIST"]).
  { repeat (constructor;
            [split; [reflexivity|first [left; reflexivity|right; reflexivity]]|]).
    constructor. }
  exact (proj1 (X_donor_prompt_takes_the_first_name _ _ ∅ Hs)
           "jane   doe" ["5"] eq_refl eq_refl eq_refl).
Defined.

(** X6 on a name with an apostrophe. *)
Lemma X_returned_name_witness :
  value (prompt_for_donor name_prompt (World ["o'neil  mcHargue"] ∅))
    = Ret (Some "O'Neil Mchargue")
  /\ prompt_for_donor name_prompt (World ["O'Neil Mchargue"; "5"] ∅)
     = Outcome (Ret (Some "O'Neil Mchargue")) (World ["5"] ∅) [EvPrompt name_prompt].
Proof.
  split; [reflexivity|].
  apply (X_returned_name_can_be_typed_again name_prompt "O'Neil Mchargue"
           (World ["o'neil  mcHargue"] ∅) ["5"] ∅); reflexivity.
Defined.

(** X8 on a run with lines asked again and a quit at the minimum. *)
Lemma X_projection_flow_witness :
  create_projection (World ["two"; "-2"; "x"; "quit"; "0"; "5"] ∅)
  = Outcome (Ret tt) (World ["5"] ∅)
      (float_asked factor_prompt float_error_prompt ["two"]
       ++ float_asked min_prompt float_error_prompt ["x"]
       ++ float_asked max_prompt float_error_prompt []
       ++ [EvFromDb; EvProjection minus_two None (Some float_zero)]).
Proof.
  pose proof (X_projection_flow_line_by_line ["two"] ["x"] [] ∅) as H.
  cbv zeta in H.
  destruct H as [_ H]; [repeat constructor..|].
  specialize (H "-2" (Some minus_two) eq_refl). cbn beta iota in H.
  change (float_truthy minus_two) with true in H. cbn iota in H.
  destruct H as [_ H]. destruct (H "quit" None eq_refl) as [_ H'].
  exact (H' "0" (Some float_zero) ["5"] eq_refl).
Defined.

(** X7 on a run with a [list] and a line that is no amount. *)
Lemma X_thank_you_witness :
  send_thank_you (World ["list"; "jane doe"; "ten dollars"; "10"; "5"] ∅)
  = Outcome (Ret tt) (World ["5"] {[ "Jane Doe" := [ten] ]})
      (donor_turns name_prompt ∅ ["list"] ++ [EvPrompt name_prompt]
       ++ float_turns amount_prompt amount_error_prompt ["ten dollars"]
       ++ [EvPrompt amount_prompt; EvAddDonor "Jane Doe";
           EvAddDonation "Jane Doe" ten; EvThankYou "Jane Doe" ten]).
Proof.
  etrans.
  - apply (X_thank_you_line_by_line ["list"] ["ten dollars"] "jane doe" "10" ["5"] ∅ ten);
      try reflexivity; repeat constructor.
  - vm_compute. reflexivity.
Defined.
